(** * Fitness tracker ([homework.py]): a shallow embedding and its properties

    The module computes distance, mean speed and spent calories of three
    kinds of workouts and renders a one-line summary.  The Python code is
    duck-typed over numbers: the same methods run on [int] and [float]
    operands.  The embedding keeps that shape:

    - [Py] models the part of the Python runtime the code relies on:
      exceptions, binary64 floats with CPython's error behaviour, the
      [int]/[float] coercions, floor division and the [.3f] format;
    - [PyNumber] is the numeric protocol ([*], [/], [//], [**], [format])
      the methods are written against, with two instances: [Py.num], the
      numbers CPython computes with, and [Q], the exact reading of the same
      formulas, in which the decimal constants denote rationals;
    - [Tracker] is the code of [homework.py], written once over [PyNumber]. *)

From Stdlib Require Import ZArith QArith Qpower Qround Qabs Floats Lia Lqa String Ascii List
  DecimalString.
From stdpp Require Import base option gmap strings.

Local Open Scope Z_scope.

(** ** The Python runtime *)

Module Py.

(** The built-in exception classes that occur: two the code names
    ([ValueError], [NotImplementedError]) and those the runtime raises.
    [Unmodelled] is not a Python exception: it marks a library call the
    model does not cover. *)
Inductive exc_class : Set :=
| ValueError
| NotImplementedError
| ZeroDivisionError
| OverflowError
| TypeError
| AttributeError
| KeyError
| Unmodelled.

Definition class_name_of (c : exc_class) : string :=
  match c with
  | ValueError => "ValueError"
  | NotImplementedError => "NotImplementedError"
  | ZeroDivisionError => "ZeroDivisionError"
  | OverflowError => "OverflowError"
  | TypeError => "TypeError"
  | AttributeError => "AttributeError"
  | KeyError => "KeyError"
  | Unmodelled => ""
  end.

(** Evaluating an expression either returns a value or raises. *)
Inductive outcome (A : Type) : Type :=
| Ret (a : A)
| Raise (e : exc_class).
Arguments Ret {A} a.
Arguments Raise {A} e.

#[global] Instance outcome_ret : MRet outcome := @Ret.
#[global] Instance outcome_bind : MBind outcome :=
  fun A B f m => match m with Ret a => f a | Raise e => Raise e end.
#[global] Instance outcome_fmap : FMap outcome :=
  fun A B f m => match m with Ret a => Ret (f a) | Raise e => Raise e end.

Definition returns {A} (m : outcome A) (P : A -> Prop) : Prop :=
  match m with Ret a => P a | Raise _ => False end.

Definition raises {A} (m : outcome A) : Prop :=
  match m with Ret _ => False | Raise _ => True end.

(** *** binary64 helpers

    Python's [float] is IEEE binary64; [+ - * /] are the primitive
    operations.  [fmod], [floor] and [copysign] are libm functions CPython
    calls; all three are exact, so they are defined on the exact value. *)

Definition sign_bit (x : float) : bool :=
  match Prim2SF x with
  | S754_zero s | S754_infinity s | S754_finite s _ _ => s
  | S754_nan => false
  end.

Definition copysign0 (x : float) : float :=
  if sign_bit x then PrimFloat.neg_zero else PrimFloat.zero.

Definition fmod (x y : float) : float :=
  match Prim2SF x, Prim2SF y with
  | S754_nan, _ | _, S754_nan => PrimFloat.nan
  | S754_infinity _, _ | _, S754_zero _ => PrimFloat.nan
  | S754_zero _, _ => x
  | S754_finite _ _ _, S754_infinity _ => x
  | S754_finite sx mx ex, S754_finite _ my ey =>
      let e := Z.min ex ey in
      let r := Z.rem (Zpos mx * 2 ^ (ex - e)) (Zpos my * 2 ^ (ey - e)) in
      SF2Prim (binary_normalize prec emax (if sx then - r else r) e sx)
  end.

Definition floor (x : float) : float :=
  match Prim2SF x with
  | S754_finite s m e =>
      if 0 <=? e then x
      else SF2Prim (binary_normalize prec emax
                      ((if s then Zneg m else Zpos m) / 2 ^ (- e)) 0 s)
  | _ => x
  end.

(** [float(z)] for an [int]: round to nearest even, [OverflowError] when
    the result does not fit. *)
Definition float_of_int (z : Z) : outcome float :=
  match binary_normalize prec emax z 0 false with
  | S754_infinity _ => Raise OverflowError
  | sf => Ret (SF2Prim sf)
  end.

(** The float a decimal literal denotes: the quotient [n/d] correctly rounded. *)
Definition float_of_Q (q : Q) : float :=
  match Qnum q with
  | Z0 => PrimFloat.zero
  | Zpos n => SF2Prim (SFdiv prec emax (S754_finite false n 0) (S754_finite false (Qden q) 0))
  | Zneg n => SF2Prim (SFdiv prec emax (S754_finite true n 0) (S754_finite false (Qden q) 0))
  end.

(** [x / y] on floats: division by a zero of either sign raises. *)
Definition float_truediv (x y : float) : outcome float :=
  if (y =? 0)%float then Raise ZeroDivisionError else Ret (x / y)%float.

(** [x // y] on floats is [float_floor_div] of CPython's floatobject.c:
    a remainder by [fmod], the quotient [(x - mod) / y] corrected when the
    remainder's sign differs from the divisor's, then snapped to an integer. *)
Definition floordiv_float (x y : float) : float :=
  let mod0 := fmod x y in
  let div0 := ((x - mod0) / y)%float in
  let div :=
    if negb (mod0 =? 0)%float && negb (Bool.eqb (y <? 0)%float (mod0 <? 0)%float)
    then (div0 - 1)%float else div0 in
  if negb (div =? 0)%float then
    let fl := floor div in
    if (0.5 <? div - fl)%float then (fl + 1)%float else fl
  else copysign0 (x / y)%float.

Definition float_floordiv (x y : float) : outcome float :=
  if (y =? 0)%float then Raise ZeroDivisionError else Ret (floordiv_float x y).

(** [x ** 2] on a float is libm's [pow x 2.0], taken here as the correctly
    rounded square; CPython turns an overflow of a finite base into
    [OverflowError]. *)
Definition float_pow2 (x : float) : outcome float :=
  let sq := (x * x)%float in
  if is_infinity sq && negb (is_infinity x) then Raise OverflowError else Ret sq.

(** [a / b] on two ints: the exact quotient correctly rounded. *)
Definition int_truediv (a b : Z) : outcome float :=
  match b with
  | Z0 => Raise ZeroDivisionError
  | _ =>
    match a with
    | Z0 => Ret (if b <? 0 then PrimFloat.neg_zero else PrimFloat.zero)
    | _ =>
      match SFdiv prec emax (S754_finite (a <? 0) (Z.to_pos (Z.abs a)) 0)
                            (S754_finite (b <? 0) (Z.to_pos (Z.abs b)) 0) with
      | S754_infinity _ => Raise OverflowError
      | sf => Ret (SF2Prim sf)
      end
    end
  end.

Definition int_floordiv (a b : Z) : outcome Z :=
  if b =? 0 then Raise ZeroDivisionError else Ret (a / b).

(** *** Numbers: [int] and [float] with Python's coercions *)

Inductive num : Set :=
| PyInt (z : Z)
| PyFloat (f : float).

Definition to_float (n : num) : outcome float :=
  match n with
  | PyInt z => float_of_int z
  | PyFloat f => Ret f
  end.

Definition arith (iop : Z -> Z -> Z) (fop : float -> float -> float)
    (a b : num) : outcome num :=
  match a, b with
  | PyInt x, PyInt y => Ret (PyInt (iop x y))
  | _, _ => x ← to_float a; y ← to_float b; Ret (PyFloat (fop x y))
  end.

Definition add : num -> num -> outcome num := arith Z.add PrimFloat.add.
Definition sub : num -> num -> outcome num := arith Z.sub PrimFloat.sub.
Definition mul : num -> num -> outcome num := arith Z.mul PrimFloat.mul.

Definition truediv (a b : num) : outcome num :=
  match a, b with
  | PyInt x, PyInt y => PyFloat <$> int_truediv x y
  | _, _ => x ← to_float a; y ← to_float b; PyFloat <$> float_truediv x y
  end.

Definition floordiv (a b : num) : outcome num :=
  match a, b with
  | PyInt x, PyInt y => PyInt <$> int_floordiv x y
  | _, _ => x ← to_float a; y ← to_float b; PyFloat <$> float_floordiv x y
  end.

Definition pow2 (a : num) : outcome num :=
  match a with
  | PyInt x => Ret (PyInt (x * x))
  | PyFloat x => PyFloat <$> float_pow2 x
  end.

(** *** The format specification [.3f] *)

Definition digit (d : Z) : ascii := ascii_of_N (48 + Z.to_N d).

Definition is_digit (c : ascii) : bool :=
  (48 <=? N_of_ascii c)%N && (N_of_ascii c <=? 57)%N.

Definition decimal (n : Z) : string := NilZero.string_of_uint (N.to_uint (Z.to_N n)).

(** [n / d] for [0 <= n], [0 < d], rounded to the nearest integer, ties to even. *)
Definition round_half_even (n d : Z) : Z :=
  let q := n / d in
  match 2 * (n mod d) ?= d with
  | Lt => q
  | Gt => q + 1
  | Eq => if Z.even q then q else q + 1
  end.

(** Fixed-point rendering of the magnitude [n / d] with three decimals. *)
Definition fixed3 (neg : bool) (n d : Z) : string :=
  let t := round_half_even (1000 * n) d in
  ((if neg then "-" else "") ++ decimal (t / 1000) ++ "."
   ++ String (digit (t / 100 mod 10))
        (String (digit (t / 10 mod 10)) (String (digit (t mod 10)) "")))%string.

Definition format_float_3f (x : float) : string :=
  match Prim2SF x with
  | S754_nan => "nan"
  | S754_infinity s => if s then "-inf" else "inf"
  | S754_zero s => fixed3 s 0 1
  | S754_finite s m e =>
      if 0 <=? e then fixed3 s (Zpos m * 2 ^ e) 1 else fixed3 s (Zpos m) (2 ^ (- e))
  end.

Definition format_3f (n : num) : outcome string :=
  format_float_3f <$> to_float n.

Definition format_Q_3f (q : Q) : string :=
  fixed3 (Qnum q <? 0) (Z.abs (Qnum q)) (Zpos (Qden q)).

End Py.

Export Py.

(** ** The numeric protocol

    What the methods of [homework.py] ask of their operands: integer and
    decimal literals, the operators [+ - * / //], squaring and the [.3f]
    format.  Every operation may raise. *)

Class PyNumber (N : Type) : Type := {
  int_lit : Z -> N;
  float_lit : Q -> N;
  py_add : N -> N -> outcome N;
  py_sub : N -> N -> outcome N;
  py_mul : N -> N -> outcome N;
  py_truediv : N -> N -> outcome N;
  py_floordiv : N -> N -> outcome N;
  py_pow2 : N -> outcome N;
  py_format_3f : N -> outcome string
}.

Declare Scope py_scope.
Delimit Scope py_scope with py.
Infix "+" := py_add : py_scope.
Infix "-" := py_sub : py_scope.
Infix "*" := py_mul : py_scope.
Infix "/" := py_truediv : py_scope.
Infix "//" := py_floordiv (at level 40, left associativity) : py_scope.

(** CPython's numbers. *)
#[global] Instance num_number : PyNumber num := {|
  int_lit := PyInt;
  float_lit q := PyFloat (float_of_Q q);
  py_add := Py.add;
  py_sub := Py.sub;
  py_mul := Py.mul;
  py_truediv := Py.truediv;
  py_floordiv := Py.floordiv;
  py_pow2 := Py.pow2;
  py_format_3f := Py.format_3f
|}.

(** Exact arithmetic: every constant is the rational it is written as and
    no operation rounds. *)
#[global] Instance Q_number : PyNumber Q := {|
  int_lit := inject_Z;
  float_lit q := q;
  py_add a b := Ret (a + b)%Q;
  py_sub a b := Ret (a - b)%Q;
  py_mul a b := Ret (a * b)%Q;
  py_truediv a b := if Qeq_bool b 0 then Raise ZeroDivisionError else Ret (a / b)%Q;
  py_floordiv a b :=
    if Qeq_bool b 0 then Raise ZeroDivisionError else Ret (inject_Z (Qfloor (a / b)));
  py_pow2 a := Ret (a * a)%Q;
  py_format_3f q := Ret (format_Q_3f q)
|}.

(** ** [homework.py] *)

(** Objects that reach a summary field or a caller: a string, a number, or
    an exception class used as a value. *)
Inductive object (N : Type) : Type :=
| Str (s : string)
| Num (n : N)
| Class (c : exc_class).
Arguments Str {N} s.
Arguments Num {N} n.
Arguments Class {N} c.

(** [format(o, spec)] for the two specifications the template uses.  The
    empty one is [str(o)]; on a string [.3f] is a [ValueError] and on a
    class a [TypeError].  [str] of a number and every other specification
    are outside the model. *)
Definition format {N} `{PyNumber N} (o : object N) (spec : string) : outcome string :=
  if String.eqb spec "" then
    match o with
    | Str s => Ret s
    | Num _ => Raise Unmodelled
    | Class c => Ret ("<class '" ++ class_name_of c ++ "'>")%string
    end
  else if String.eqb spec ".3f" then
    match o with
    | Str _ => Raise ValueError
    | Num n => py_format_3f n
    | Class _ => Raise TypeError
    end
  else Raise Unmodelled.

(** A format string, cut at its replacement fields [{name}] and
    [{name:spec}]. *)
Inductive piece : Set :=
| Text (s : string)
| Field (name spec : string).

Inductive scanning : Set := in_text | in_name | in_spec.

Definition snoc (s : string) (c : ascii) : string := (s ++ String c "")%string.

Definition text_piece (s : string) : list piece :=
  if String.eqb s "" then [] else [Text s].

Fixpoint parse (s : string) (st : scanning) (cur name : string) : list piece :=
  match s with
  | EmptyString => text_piece cur
  | String c rest =>
      match st with
      | in_text =>
          if Ascii.eqb c "{" then text_piece cur ++ parse rest in_name "" ""
          else parse rest in_text (snoc cur c) ""
      | in_name =>
          if Ascii.eqb c ":" then parse rest in_spec "" cur
          else if Ascii.eqb c "}" then Field cur "" :: parse rest in_text "" ""
          else parse rest in_name (snoc cur c) ""
      | in_spec =>
          if Ascii.eqb c "}" then Field name cur :: parse rest in_text "" ""
          else parse rest in_spec (snoc cur c) name
      end
  end.

Fixpoint render {N} `{PyNumber N} (template : list piece)
    (kwargs : gmap string (object N)) : outcome string :=
  match template with
  | [] => Ret ""%string
  | Text s :: rest => r ← render rest kwargs; Ret (s ++ r)%string
  | Field name spec :: rest =>
      match kwargs !! name with
      | None => Raise KeyError
      | Some o =>
          s ← format o spec; r ← render rest kwargs; Ret (s ++ r)%string
      end
  end.

(** [template.format( **kwargs )]: fields are rendered left to right. *)
Definition str_format {N} `{PyNumber N} (template : string)
    (kwargs : gmap string (object N)) : outcome string :=
  render (parse template in_text "" "") kwargs.

Module InfoMessage.

Record t (N : Type) : Type := Build {
  training_type : string;
  duration : N;
  distance : N;
  speed : N;
  calories : object N
}.
Arguments Build {N}.
Arguments training_type {N}.
Arguments duration {N}.
Arguments distance {N}.
Arguments speed {N}.
Arguments calories {N}.

Definition MESSAGE : string :=
  ("Тип тренировки: {training_type}; "
   ++ "Длительность: {duration:.3f} ч.; "
   ++ "Дистанция: {distance:.3f} км; "
   ++ "Ср. скорость: {speed:.3f} км/ч; "
   ++ "Потрачено ккал: {calories:.3f}.")%string.

(** [dataclasses.asdict]: every field by name, the defaulted [MESSAGE]
    included. *)
Definition asdict {N} (self : t N) : gmap string (object N) :=
  <["training_type" := Str (training_type self)]>
  (<["duration" := Num (duration self)]>
  (<["distance" := Num (distance self)]>
  (<["speed" := Num (speed self)]>
  (<["calories" := calories self]>
  (<["MESSAGE" := Str MESSAGE]> ∅))))).

Definition get_message {N} `{PyNumber N} (self : t N) : outcome string :=
  str_format MESSAGE (asdict self).

End InfoMessage.

Section Tracker.

Context {N : Type} `{PyNumber N}.
Local Open Scope py_scope.

(** Instances of [Training] and of its three subclasses; a constructor is
    the call of the class with its [__init__] arguments. *)
Inductive training : Type :=
| Training (action duration weight : N)
| Running (action duration weight : N)
| SportsWalking (action duration weight height : N)
| Swimming (action duration weight length_pool count_pool : N).

Definition action (self : training) : N :=
  match self with
  | Training a _ _ | Running a _ _ | SportsWalking a _ _ _ | Swimming a _ _ _ _ => a
  end.

Definition duration (self : training) : N :=
  match self with
  | Training _ d _ | Running _ d _ | SportsWalking _ d _ _ | Swimming _ d _ _ _ => d
  end.

Definition weight (self : training) : N :=
  match self with
  | Training _ _ w | Running _ _ w | SportsWalking _ _ w _ | Swimming _ _ w _ _ => w
  end.

(** [self.__class__.__name__] *)
Definition class_name (self : training) : string :=
  match self with
  | Training _ _ _ => "Training"
  | Running _ _ _ => "Running"
  | SportsWalking _ _ _ _ => "SportsWalking"
  | Swimming _ _ _ _ _ => "Swimming"
  end.

(** Class attributes.  [Swimming] overrides [LEN_STEP]. *)
Definition M_IN_KM : N := int_lit 1000.
Definition MIN_IN_HOUR : N := int_lit 60.
Definition LEN_STEP (self : training) : N :=
  match self with
  | Swimming _ _ _ _ _ => float_lit 1.38
  | _ => float_lit 0.65
  end.
Definition COEFF_CAL_1 : N := int_lit 18.
Definition COEFF_CAL_2 : N := int_lit 20.
Definition COEFF_WEIGHT_WLK_1 : N := float_lit 0.035.
Definition COEFF_WEIGHT_WLK_2 : N := float_lit 0.029.
Definition COEFF_1 : N := float_lit 1.1.
Definition COEFF_2 : N := int_lit 2.

(** [Training.get_distance], inherited by every subclass. *)
Definition get_distance (self : training) : outcome N :=
  steps ← action self * LEN_STEP self;
  steps / M_IN_KM.

(** [Training.get_mean_speed], overridden by [Swimming]. *)
Definition get_mean_speed (self : training) : outcome N :=
  match self with
  | Swimming _ duration _ length_pool count_pool =>
      value_pool ← length_pool * count_pool;
      km ← value_pool / M_IN_KM;
      km / duration
  | _ =>
      distance ← get_distance self;
      distance / duration self
  end.

(** [get_spent_calories]: the base method returns the class
    [NotImplementedError]; each subclass overrides it. *)
Definition get_spent_calories (self : training) : outcome (object N) :=
  match self with
  | Training _ _ _ => Ret (Class NotImplementedError)
  | Running _ _ _ =>
      mean_speed ← get_mean_speed self;
      scaled ← COEFF_CAL_1 * mean_speed;
      speed ← scaled - COEFF_CAL_2;
      training_in_min ← duration self * MIN_IN_HOUR;
      by_weight ← speed * weight self;
      per_km ← by_weight / M_IN_KM;
      Num <$> per_km * training_in_min
  | SportsWalking _ _ _ height =>
      weight_gl_wlk ← COEFF_WEIGHT_WLK_2 * weight self;
      mean_speed ← get_mean_speed self;
      squared ← py_pow2 mean_speed;
      speed_gd_wlk ← squared // height;
      time_duration ← duration self * MIN_IN_HOUR;
      base ← COEFF_WEIGHT_WLK_1 * weight self;
      extra ← speed_gd_wlk * weight_gl_wlk;
      total ← base + extra;
      Num <$> total * time_duration
  | Swimming _ _ _ _ _ =>
      value_weight ← COEFF_2 * weight self;
      mean_speed ← get_mean_speed self;
      shifted ← mean_speed + COEFF_1;
      Num <$> shifted * value_weight
  end.

Definition show_training_info (self : training) : outcome (InfoMessage.t N) :=
  distance ← get_distance self;
  speed ← get_mean_speed self;
  calories ← get_spent_calories self;
  Ret (InfoMessage.Build (class_name self) (duration self) distance speed calories).

(** The values of [training_dict]: the three subclasses as class objects. *)
Inductive training_class : Set :=
| class_Swimming
| class_Running
| class_SportsWalking.

Definition training_dict : gmap string training_class :=
  <["SWM" := class_Swimming]>
  (<["RUN" := class_Running]>
  (<["WLK" := class_SportsWalking]> ∅)).

(** [cls( *data )]: the list is spread over the parameters of [__init__];
    any other length is a [TypeError]. *)
Definition call (cls : training_class) (data : list N) : outcome training :=
  match cls, data with
  | class_Swimming, [a; d; w; l; c] => Ret (Swimming a d w l c)
  | class_Running, [a; d; w] => Ret (Running a d w)
  | class_SportsWalking, [a; d; w; h] => Ret (SportsWalking a d w h)
  | _, _ => Raise TypeError
  end.

(** What [read_package] hands back: a workout, or the class [ValueError]. *)
Inductive package : Type :=
| Workout (t : training)
| ClassObject (c : exc_class).

Definition read_package (workout_type : string) (data : list N) : outcome package :=
  match training_dict !! workout_type with
  | None => Ret (ClassObject ValueError)
  | Some cls => Workout <$> call cls data
  end.

(** [main] prints one line; the line is its result here.  A class object
    has no [show_training_info]. *)
Definition main (training : package) : outcome string :=
  match training with
  | Workout t => info ← show_training_info t; InfoMessage.get_message info
  | ClassObject _ => Raise AttributeError
  end.

(** The loop of the [__main__] block: the lines printed, or the first
    exception. *)
Fixpoint run (packages : list (string * list N)) : outcome (list string) :=
  match packages with
  | [] => Ret []
  | (workout_type, data) :: rest =>
      training ← read_package workout_type data;
      line ← main training;
      lines ← run rest;
      Ret (line :: lines)
  end.

Definition packages : list (string * list N) :=
  [ ("SWM"%string, map int_lit [720; 1; 80; 25; 40]);
    ("RUN"%string, map int_lit [15000; 1; 75]);
    ("WLK"%string, map int_lit [9000; 1; 75; 180]) ].

End Tracker.

Arguments training N : clear implicits.
Arguments package N : clear implicits.

(** ** Reading results *)

(** A method result that is a number satisfying [P]. *)
Definition returns_num {N} (m : outcome (object N)) (P : N -> Prop) : Prop :=
  match m with
  | Ret (Num n) => P n
  | _ => False
  end.

(** The rational a finite float stands for (0 for the others). *)
Definition exact (x : float) : Q :=
  match Prim2SF x with
  | S754_finite s m e =>
      let v := if 0 <=? e then inject_Z (Zpos m * 2 ^ e) else Zpos m # Z.to_pos (2 ^ (- e)) in
      if s then (- v)%Q else v
  | _ => 0%Q
  end.

Definition finite_float (x : float) : bool :=
  match Prim2SF x with
  | S754_zero _ | S754_finite _ _ _ => true
  | _ => false
  end.

(** [x] agrees with the decimal [q] to twelve places. *)
Definition close_to (x : float) (q : Q) : Prop :=
  finite_float x = true /\ (Qabs (exact x - q) <= 1 # 10 ^ 12)%Q.

(** Fixed-point text with exactly three decimals: an optional sign, at
    least one digit, a point, three digits. *)
Fixpoint all_digits (s : string) : bool :=
  match s with
  | EmptyString => true
  | String c rest => is_digit c && all_digits rest
  end.

Fixpoint digits_point_three (s : string) : bool :=
  match s with
  | EmptyString => false
  | String c rest =>
      if Ascii.eqb c "." then
        match rest with
        | String x (String y (String z EmptyString)) => is_digit x && is_digit y && is_digit z
        | _ => false
        end
      else is_digit c && digits_point_three rest
  end.

Definition unsigned_fixed3 (s : string) : bool :=
  match s with
  | String c _ => is_digit c && digits_point_three s
  | EmptyString => false
  end.

Definition is_fixed3 (s : string) : bool :=
  match s with
  | String c rest => if Ascii.eqb c "-" then unsigned_fixed3 rest else unsigned_fixed3 s
  | EmptyString => false
  end.

(** [n == 0] on CPython's numbers: true of [0], [0.0] and [-0.0]. *)
Definition is_zero (n : num) : bool :=
  match n with
  | PyInt z => z =? 0
  | PyFloat f => (f =? 0)%float
  end.


(** ** Rounding error *)

(** Where a record [(m, r, s)] stands after shifting: [m] is the quotient
    of [num] by [D], and the round and sticky bits locate the remainder
    against the half of [D]. *)
Definition located (num D : Z) (mrs : shr_record) : Prop :=
  0 < D /\ 0 <= shr_m mrs
  /\ 0 <= num - shr_m mrs * D < D
  /\ shr_r mrs = (D <=? 2 * (num - shr_m mrs * D))
  /\ shr_s mrs = negb (num - shr_m mrs * D =? 0) && negb (2 * (num - shr_m mrs * D) =? D).

(** What rounding leaves of a mantissa [m1] of fifty-three bits, or of
    [2^53] after a carry, at exponent [e]. *)
Definition rounded (sx : bool) (m1 e : Z) : spec_float :=
  if m1 <? 2 ^ 53 then
    if e <=? 971 then S754_finite sx (Z.to_pos m1) e else S754_infinity sx
  else
    if e + 1 <=? 971 then S754_finite sx (Z.to_pos (2 ^ 52)) (e + 1) else S754_infinity sx.

Definition unit_roundoff : Q := 1 # 9007199254740992.

(** [m * 2^e] *)
Definition scaled (m e : Z) : Q := (inject_Z m * 2 ^ e)%Q.

Definition value_of (sf : spec_float) : Q :=
  match sf with
  | S754_finite s m e => if s then (- scaled (Zpos m) e)%Q else scaled (Zpos m) e
  | _ => 0%Q
  end.

(** [v] is [x] rounded to the nearest float. *)
Definition rounding_of (v x : Q) : Prop := (Qabs (v - x) <= x * unit_roundoff)%Q.

(** [v] is [x] up to the relative error [r]. *)
Definition near (v x r : Q) : Prop := (0 <= x /\ x * (1 - r) <= v <= x * (1 + r))%Q.

Definition normal_mantissa (m : positive) : Prop := 2 ^ 52 <= Zpos m < 2 ^ 53.

(** A positive normal float with mantissa [m] and exponent [e]. *)
Definition positive_normal (f : float) (m : positive) (e : Z) : Prop :=
  Prim2SF f = S754_finite false m e /\ normal_mantissa m.

(** * Properties *)

Set Warnings "-inexact-float".

(** ** Facts about the runtime model *)

Lemma bind_ret {A B} (a : A) (k : A -> outcome B) : (Ret a ≫= k) = k a.
Proof. reflexivity. Qed.

Lemma bind_fmap {A B C} (m : outcome A) (f : A -> B) (k : B -> outcome C) :
  ((f <$> m) ≫= k) = (m ≫= fun a => k (f a)).
Proof. destruct m; reflexivity. Qed.

Lemma fmap_bind_ret {A B} (m : outcome A) (f : A -> B) :
  (m ≫= fun a => Ret (f a)) = (f <$> m).
Proof. destruct m; reflexivity. Qed.

Lemma float_pos_nonzero (d : float) :
  (0 <? d)%float = true -> (d =? 0)%float = false.
Proof.
  intros Hd. rewrite FloatAxioms.ltb_spec in Hd. rewrite FloatAxioms.eqb_spec.
  revert Hd. change (Prim2SF 0) with (S754_zero false).
  destruct (Prim2SF d) as [s|s| |s m e]; try destruct s; cbn; congruence.
Qed.

Lemma float_truediv_pos (x d : float) :
  (0 <? d)%float = true -> float_truediv x d = Ret (x / d)%float.
Proof. intros Hd. unfold float_truediv. now rewrite float_pos_nonzero. Qed.


Lemma Qeq_bool_pos (d : Q) : (0 < d)%Q -> Qeq_bool d 0 = false.
Proof.
  intros Hd. destruct (Qeq_bool d 0) eqn:E; [|reflexivity].
  apply Qeq_bool_eq in E. rewrite E in Hd. now apply Qlt_irrefl in Hd.
Qed.

(** Mixed [int]/[float] operands: the int side is converted first. *)
Lemma mul_int_float (a : Z) (y : float) :
  Py.mul (PyInt a) (PyFloat y) = (fun x => PyFloat (x * y)%float) <$> float_of_int a.
Proof. unfold Py.mul, arith. cbn. now destruct (float_of_int a). Qed.

Lemma mul_float_int (x : float) (b : Z) :
  Py.mul (PyFloat x) (PyInt b) = (fun y => PyFloat (x * y)%float) <$> float_of_int b.
Proof. unfold Py.mul, arith. cbn. now destruct (float_of_int b). Qed.

Lemma truediv_float_int (x : float) (b : Z) :
  Py.truediv (PyFloat x) (PyInt b) = (float_of_int b ≫= fun y => PyFloat <$> float_truediv x y).
Proof. reflexivity. Qed.

(** ** The dispatcher *)

Lemma training_dict_unknown (code : string) :
  code <> "SWM"%string -> code <> "RUN"%string -> code <> "WLK"%string ->
  training_dict !! code = None.
Proof.
  intros. unfold training_dict.
  rewrite !lookup_insert_ne by congruence. apply lookup_empty.
Qed.

Lemma training_dict_known (code : string) (cls : training_class) :
  training_dict !! code = Some cls ->
  (code = "SWM"%string /\ cls = class_Swimming)
  \/ (code = "RUN"%string /\ cls = class_Running)
  \/ (code = "WLK"%string /\ cls = class_SportsWalking).
Proof.
  unfold training_dict. intros Hl.
  destruct (decide (code = "SWM"%string)) as [->|n1].
  { rewrite lookup_insert_eq in Hl. left. split; congruence. }
  rewrite lookup_insert_ne in Hl by congruence.
  destruct (decide (code = "RUN"%string)) as [->|n2].
  { rewrite lookup_insert_eq in Hl. right; left. split; congruence. }
  rewrite lookup_insert_ne in Hl by congruence.
  destruct (decide (code = "WLK"%string)) as [->|n3].
  { rewrite lookup_insert_eq in Hl. right; right. split; congruence. }
  rewrite lookup_insert_ne, lookup_empty in Hl by congruence. discriminate.
Qed.

(** C1. For a workout-type code outside SWM, RUN and WLK, [read_package]
    does not signal a failure: it returns normally, and what it returns is
    the class [ValueError] itself.  The failure only shows when [main]
    uses the returned object, and then as an [AttributeError]. *)
Theorem read_package_unknown_code {N} `{PyNumber N} (code : string) (data : list N) :
  code <> "SWM"%string -> code <> "RUN"%string -> code <> "WLK"%string ->
  read_package code data = Ret (ClassObject ValueError)
  /\ ~ raises (read_package code data)
  /\ (read_package code data ≫= main) = Raise AttributeError.
Proof.
  intros H1 H2 H3. unfold read_package.
  rewrite (training_dict_unknown code H1 H2 H3). repeat split. intros [].
Qed.

Lemma read_package_unknown_code_XYZ :
  read_package (N:=num) "XYZ" [] = Ret (ClassObject ValueError)
  /\ ~ raises (read_package (N:=num) "XYZ" [])
  /\ (read_package (N:=num) "XYZ" [] ≫= main) = Raise AttributeError.
Proof. apply (read_package_unknown_code (N:=num) "XYZ" []); discriminate. Defined.

(** C4. The base method [Training.get_spent_calories] does not fail: for
    every base-class workout it returns the class [NotImplementedError] as
    an ordinary value.  A summary is still built from it, and the value
    is refused only later, by the [.3f] format, as a [TypeError]. *)
Theorem base_get_spent_calories_returns_class :
  (forall N (HN : PyNumber N) (a d w : N),
      get_spent_calories (Training a d w) = Ret (Class NotImplementedError)
      /\ ~ raises (get_spent_calories (Training a d w)))
  /\ show_training_info (Training (PyInt 1) (PyInt 1) (PyInt 1))
     = Ret (InfoMessage.Build "Training" (PyInt 1) (PyFloat 0.00065) (PyFloat 0.00065)
              (Class NotImplementedError))
  /\ (show_training_info (Training (PyInt 1) (PyInt 1) (PyInt 1))
        ≫= InfoMessage.get_message) = Raise TypeError.
Proof.
  split; [|split].
  - intros N HN a d w. split; [reflexivity|]. intros [].
  - vm_compute. reflexivity.
  - vm_compute. reflexivity.
Qed.

(** C7. [read_package] builds the variant its code names, spreading the
    parameter list positionally over the constructor: five parameters for
    SWM, three for RUN, four for WLK; the mapping has these three codes
    and no other. *)
Theorem read_package_constructs_variant :
  forall N (HN : PyNumber N),
    (forall a d w l c : N,
        read_package "SWM" [a; d; w; l; c] = Ret (Workout (Swimming a d w l c)))
    /\ (forall a d w : N,
        read_package "RUN" [a; d; w] = Ret (Workout (Running a d w)))
    /\ (forall a d w h : N,
        read_package "WLK" [a; d; w; h] = Ret (Workout (SportsWalking a d w h)))
    /\ (forall code : string,
        is_Some (training_dict !! code) <-> code ∈ ["SWM"; "RUN"; "WLK"]%string).
Proof.
  intros N HN. repeat split; try reflexivity.
  - intros [cls Hc]. apply training_dict_known in Hc.
    destruct Hc as [[-> _]|[[-> _]|[-> _]]]; set_solver.
  - intros Hin. repeat (apply elem_of_cons in Hin as [->|Hin]; [eexists; reflexivity|]).
    now apply elem_of_nil in Hin.
Qed.

(** A parameter list of any other length does not fit the constructor:
    the call raises [TypeError]. *)
Theorem read_package_wrong_arity :
  forall N (HN : PyNumber N) (data : list N),
    (length data <> 5%nat -> read_package "SWM" data = Raise TypeError)
    /\ (length data <> 3%nat -> read_package "RUN" data = Raise TypeError)
    /\ (length data <> 4%nat -> read_package "WLK" data = Raise TypeError).
Proof.
  intros N HN data.
  destruct data as [|a [|b [|c [|d [|e [|f data]]]]]]; cbn [length];
    repeat split; intros Hlen; try reflexivity; contradiction.
Qed.

Lemma read_package_wrong_arity_two :
  length [PyInt 15000; PyInt 1] <> 3%nat
  /\ read_package "RUN" [PyInt 15000; PyInt 1] = Raise TypeError.
Proof.
  split; [discriminate|].
  apply (proj1 (proj2 (read_package_wrong_arity num _ [PyInt 15000; PyInt 1]))).
  discriminate.
Defined.

(** The three packages of the [__main__] block print these three lines,
    on CPython's numbers and in exact arithmetic alike. *)
Theorem script_output :
  let lines :=
    [ ("Тип тренировки: Swimming; Длительность: 1.000 ч.; Дистанция: 0.994 км; "
       ++ "Ср. скорость: 1.000 км/ч; Потрачено ккал: 336.000.")%string;
      ("Тип тренировки: Running; Длительность: 1.000 ч.; Дистанция: 9.750 км; "
       ++ "Ср. скорость: 9.750 км/ч; Потрачено ккал: 699.750.")%string;
      ("Тип тренировки: SportsWalking; Длительность: 1.000 ч.; Дистанция: 5.850 км; "
       ++ "Ср. скорость: 5.850 км/ч; Потрачено ккал: 157.500.")%string ] in
  run (N:=num) packages = Ret lines /\ run (N:=Q) packages = Ret lines.
Proof. split; vm_compute; reflexivity. Qed.

(** ** Evaluating the methods on CPython's numbers *)

Lemma truediv_float_pos (x d : float) :
  (0 <? d)%float = true -> Py.truediv (PyFloat x) (PyFloat d) = Ret (PyFloat (x / d)%float).
Proof. intros Hd. cbn. now rewrite float_truediv_pos. Qed.


(** The protocol at [num] is the runtime's arithmetic; the literals of the
    module are the floats nearest to them. *)
Ltac py_ops :=
  change (@py_mul num num_number) with Py.mul in *;
  change (@py_add num num_number) with Py.add in *;
  change (@py_sub num num_number) with Py.sub in *;
  change (@py_truediv num num_number) with Py.truediv in *;
  change (@py_floordiv num num_number) with Py.floordiv in *;
  change (@py_pow2 num num_number) with Py.pow2 in *;
  change (@int_lit num num_number) with PyInt in *;
  change (@float_lit num num_number 0.65) with (PyFloat 0.65) in *;
  change (@float_lit num num_number 1.38) with (PyFloat 1.38) in *;
  change (@float_lit num num_number 0.035) with (PyFloat 0.035) in *;
  change (@float_lit num num_number 0.029) with (PyFloat 0.029) in *;
  change (@float_lit num num_number 1.1) with (PyFloat 1.1) in *.

(** Operations between floats, and between a float and one of the integer
    constants of the module, never raise. *)
Ltac py_consts :=
  repeat match goal with
  | |- context [Py.mul (PyFloat ?x) (PyFloat ?y)] =>
      change (Py.mul (PyFloat x) (PyFloat y)) with (Ret (PyFloat (x * y)%float))
  | |- context [Py.add (PyFloat ?x) (PyFloat ?y)] =>
      change (Py.add (PyFloat x) (PyFloat y)) with (Ret (PyFloat (x + y)%float))
  | |- context [Py.truediv (PyFloat ?x) (PyInt 1000)] =>
      change (Py.truediv (PyFloat x) (PyInt 1000)) with (Ret (PyFloat (x / 1000)%float))
  | |- context [Py.mul (PyFloat ?x) (PyInt 60)] =>
      change (Py.mul (PyFloat x) (PyInt 60)) with (Ret (PyFloat (x * 60)%float))
  | |- context [Py.mul (PyInt 18) (PyFloat ?x)] =>
      change (Py.mul (PyInt 18) (PyFloat x)) with (Ret (PyFloat (18 * x)%float))
  | |- context [Py.sub (PyFloat ?x) (PyInt 20)] =>
      change (Py.sub (PyFloat x) (PyInt 20)) with (Ret (PyFloat (x - 20)%float))
  | |- context [Py.mul (PyInt 2) (PyFloat ?x)] =>
      change (Py.mul (PyInt 2) (PyFloat x)) with (Ret (PyFloat (2 * x)%float))
  end.

Ltac py_run Hd :=
  repeat first
    [ progress py_consts
    | progress cbn [mbind outcome_bind fmap outcome_fmap]
    | rewrite (truediv_float_pos _ _ Hd) ].

Ltac py_unfold :=
  unfold show_training_info, get_spent_calories, get_mean_speed, get_distance;
  cbn [action duration weight LEN_STEP class_name];
  unfold M_IN_KM, MIN_IN_HOUR, COEFF_CAL_1, COEFF_CAL_2, COEFF_WEIGHT_WLK_1,
    COEFF_WEIGHT_WLK_2, COEFF_1, COEFF_2;
  py_ops.

Section Binary64.

Variables (a : Z) (d w : float).
Hypothesis duration_positive : (0 <? d)%float = true.

Lemma running_distance_binary64 :
  get_distance (Running (PyInt a) (PyFloat d) (PyFloat w))
  = (fun fa => PyFloat (fa * 0.65 / 1000)%float) <$> float_of_int a.
Proof.
  py_unfold. rewrite mul_int_float.
  destruct (float_of_int a) as [fa|e]; [|reflexivity]. now py_run duration_positive.
Qed.

Lemma running_mean_speed_binary64 :
  get_mean_speed (Running (PyInt a) (PyFloat d) (PyFloat w))
  = (fun fa => PyFloat (fa * 0.65 / 1000 / d)%float) <$> float_of_int a.
Proof.
  py_unfold. rewrite mul_int_float.
  destruct (float_of_int a) as [fa|e]; [|reflexivity]. now py_run duration_positive.
Qed.

Lemma running_calories_binary64 :
  get_spent_calories (Running (PyInt a) (PyFloat d) (PyFloat w))
  = (fun fa => Num (PyFloat
         ((18 * (fa * 0.65 / 1000 / d) - 20) * w / 1000 * (d * 60))%float))
    <$> float_of_int a.
Proof.
  py_unfold. rewrite mul_int_float.
  destruct (float_of_int a) as [fa|e]; [|reflexivity]. now py_run duration_positive.
Qed.


Lemma swimming_distance_binary64 (lp cp : num) :
  get_distance (Swimming (PyInt a) (PyFloat d) (PyFloat w) lp cp)
  = (fun fa => PyFloat (fa * 1.38 / 1000)%float) <$> float_of_int a.
Proof.
  py_unfold. rewrite mul_int_float.
  destruct (float_of_int a) as [fa|e]; [|reflexivity]. now py_run duration_positive.
Qed.

Lemma swimming_mean_speed_binary64 (act : num) (lp : float) (cp : Z) :
  get_mean_speed (Swimming act (PyFloat d) (PyFloat w) (PyFloat lp) (PyInt cp))
  = (fun fc => PyFloat (lp * fc / 1000 / d)%float) <$> float_of_int cp.
Proof.
  py_unfold. rewrite mul_float_int.
  destruct (float_of_int cp) as [fc|e]; [|reflexivity]. now py_run duration_positive.
Qed.

Lemma swimming_calories_binary64 (act : num) (lp : float) (cp : Z) :
  get_spent_calories (Swimming act (PyFloat d) (PyFloat w) (PyFloat lp) (PyInt cp))
  = (fun fc => Num (PyFloat ((lp * fc / 1000 / d + 1.1) * (2 * w))%float))
    <$> float_of_int cp.
Proof.
  py_unfold. py_run duration_positive. rewrite mul_float_int.
  destruct (float_of_int cp) as [fc|e]; [|reflexivity]. now py_run duration_positive.
Qed.

End Binary64.

(** ** Evaluating the methods in exact arithmetic *)

Section Exact.

Variables a d w : Q.
Hypothesis duration_positive : (0 < d)%Q.

Let d_nonzero : ~ (d == 0)%Q.
Proof. intros E. rewrite E in duration_positive. now apply Qlt_irrefl in duration_positive. Qed.

Ltac q_run :=
  unfold show_training_info, get_spent_calories, get_mean_speed, get_distance;
  cbn; change (Qeq_bool (inject_Z 1000) 0) with false;
  rewrite ?(Qeq_bool_pos d duration_positive); cbn;
  change (inject_Z 1000) with 1000%Q; change (inject_Z 60) with 60%Q;
  change (inject_Z 18) with 18%Q; change (inject_Z 20) with 20%Q;
  change (inject_Z 2) with 2%Q.

Lemma running_distance_exact :
  returns (get_distance (Running a d w)) (fun x => x == a * 0.00065)%Q.
Proof. q_run. field. Qed.

Lemma running_mean_speed_exact :
  returns (get_mean_speed (Running a d w)) (fun s => s == a * 0.00065 / d)%Q.
Proof. q_run. field. exact d_nonzero. Qed.

Lemma running_calories_exact :
  returns_num (get_spent_calories (Running a d w))
    (fun c => c == (18 * (a * 0.00065 / d) - 20) * w / 1000 * (d * 60))%Q.
Proof. q_run. field. exact d_nonzero. Qed.


Lemma swimming_distance_exact (lp cp : Q) :
  returns (get_distance (Swimming a d w lp cp)) (fun x => x == a * 1.38 / 1000)%Q.
Proof. q_run. field. Qed.

Lemma swimming_mean_speed_exact (lp cp : Q) :
  returns (get_mean_speed (Swimming a d w lp cp)) (fun s => s == lp * cp / 1000 / d)%Q.
Proof. q_run. field. exact d_nonzero. Qed.

Lemma swimming_calories_exact (lp cp : Q) :
  returns_num (get_spent_calories (Swimming a d w lp cp))
    (fun c => c == (lp * cp / 1000 / d + 1.1) * (2 * w))%Q.
Proof. q_run. field. exact d_nonzero. Qed.

End Exact.

(** ** Rounding of binary64 operations

    The conversion of an integer, the product and the quotient of positive
    normal floats are the exact results rounded to fifty-three bits: each
    is off by at most the unit roundoff, relatively. *)

Lemma digits2_pos_bounds (p : positive) :
  2 ^ (Zpos (digits2_pos p) - 1) <= Zpos p < 2 ^ Zpos (digits2_pos p).
Proof.
  induction p as [p IH|p IH|]; cbn [digits2_pos].
  - rewrite Pos2Z.inj_succ.
    replace (Z.succ (Z.pos (digits2_pos p)) - 1) with (Z.succ (Z.pos (digits2_pos p) - 1)) by lia.
    rewrite !Z.pow_succ_r by lia. lia.
  - rewrite Pos2Z.inj_succ.
    replace (Z.succ (Z.pos (digits2_pos p)) - 1) with (Z.succ (Z.pos (digits2_pos p) - 1)) by lia.
    rewrite !Z.pow_succ_r by lia. lia.
  - cbn. lia.
Qed.

Lemma located_shr_1 (num D : Z) (mrs : shr_record) :
  located num D mrs -> located num (2 * D) (shr_1 mrs).
Proof.
  destruct mrs as [m r s]. unfold located. cbn [shr_m shr_r shr_s].
  intros (HD & Hm & Hrho & Hr & Hs). subst r s.
  destruct m as [|[p|p|]|p]; try lia; cbn [shr_1 shr_m shr_r shr_s];
    repeat split; try lia;
    repeat match goal with
    | |- context [?x <=? ?y] => destruct (Z.leb_spec x y)
    | |- context [?x =? ?y] => destruct (Z.eqb_spec x y)
    end; cbn; try reflexivity; try lia.
Qed.

Lemma pow2_xO (p : positive) : 2 ^ Z.pos p~0 = 2 ^ Z.pos p * 2 ^ Z.pos p.
Proof. rewrite <- Z.pow_add_r by lia. f_equal. lia. Qed.

Lemma pow2_xI (p : positive) : 2 ^ Z.pos p~1 = 2 * (2 ^ Z.pos p * 2 ^ Z.pos p).
Proof.
  rewrite <- Z.pow_add_r by lia. rewrite <- Z.pow_succ_r by lia. f_equal. lia.
Qed.

Lemma located_iter (p : positive) :
  forall num D mrs,
    located num D mrs -> located num (D * 2 ^ Zpos p) (SpecFloat.iter_pos shr_1 p mrs).
Proof.
  induction p as [p IH|p IH|]; intros num D mrs H; cbn [SpecFloat.iter_pos].
  - apply located_shr_1 in H. apply IH in H. apply IH in H.
    rewrite pow2_xI.
    replace (D * (2 * (2 ^ Z.pos p * 2 ^ Z.pos p)))
      with (2 * D * 2 ^ Z.pos p * 2 ^ Z.pos p) by ring.
    exact H.
  - apply IH in H. apply IH in H. rewrite pow2_xO.
    replace (D * (2 ^ Z.pos p * 2 ^ Z.pos p)) with (D * 2 ^ Z.pos p * 2 ^ Z.pos p) by ring.
    exact H.
  - apply located_shr_1 in H.
    replace (D * 2 ^ 1) with (2 * D) by (rewrite Z.pow_1_r; ring). exact H.
Qed.

Lemma round_nearest_even_bound (num D : Z) (mrs : shr_record) :
  located num D mrs ->
  let m1 := round_nearest_even (shr_m mrs) (loc_of_shr_record mrs) in
  shr_m mrs <= m1 <= shr_m mrs + 1 /\ Z.abs (2 * (m1 * D - num)) <= D.
Proof.
  destruct mrs as [m r s]. unfold located. cbn [shr_m shr_r shr_s].
  intros (HD & Hm & Hrho & Hr & Hs). subst r s.
  repeat match goal with
    | |- context [?x <=? ?y] => destruct (Z.leb_spec x y)
    | |- context [?x =? ?y] => destruct (Z.eqb_spec x y)
    end; cbn [negb andb loc_of_shr_record round_nearest_even]; try lia;
  try (destruct (Z.even m)); lia.
Qed.

Lemma fexp_normal (x : Z) : -1074 <= x - 53 -> fexp prec emax x = x - 53.
Proof. intros H. unfold fexp, SpecFloat.emin, prec, emax. lia. Qed.

Lemma digits_unique (x k j : Z) :
  0 < k -> 0 < j -> 2 ^ (k - 1) <= x < 2 ^ k -> 2 ^ (j - 1) <= x < 2 ^ j -> k = j.
Proof.
  intros Hk Hj [A B] [C E].
  destruct (Z.lt_trichotomy k j) as [L|[L|L]]; [|exact L|].
  - assert (2 ^ k <= 2 ^ (j - 1)) by (apply Z.pow_le_mono_r; lia). lia.
  - assert (2 ^ j <= 2 ^ (k - 1)) by (apply Z.pow_le_mono_r; lia). lia.
Qed.

Lemma shr_located (num D0 : Z) (mrs : shr_record) (e n : Z) :
  0 <= n -> located num D0 mrs ->
  located num (D0 * 2 ^ n) (fst (shr mrs e n)) /\ snd (shr mrs e n) = e + n.
Proof.
  intros Hn H. unfold shr. destruct n as [|p|p]; try lia; cbn [fst snd].
  - rewrite Z.pow_0_r, Z.mul_1_r. split; [exact H|lia].
  - split; [now apply located_iter|reflexivity].
Qed.

Lemma quotient_digits (num D0 mx m n d : Z) :
  0 < D0 -> 0 <= n ->
  0 <= num - mx * D0 < D0 ->
  0 <= num - m * (D0 * 2 ^ n) < D0 * 2 ^ n ->
  2 ^ (d - 1) <= mx < 2 ^ d -> d = 53 + n ->
  2 ^ 52 <= m < 2 ^ 53.
Proof.
  intros HD Hn H1 H2 Hd ->.
  assert (P : 0 < 2 ^ n) by (apply Z.pow_pos_nonneg; lia).
  replace (53 + n - 1) with (52 + n) in Hd by lia.
  rewrite !Z.pow_add_r in Hd by lia.
  set (P2 := 2 ^ n) in *. clearbody P2.
  assert (A : m * P2 < mx + 1) by nia.
  assert (B : mx < (m + 1) * P2) by nia.
  split; nia.
Qed.

Lemma binary_round_aux_normal (sx : bool) (mx : positive) (ex : Z) (lx : location)
    (num D0 : Z) :
  located num D0 (shr_record_of_loc (Zpos mx) lx) ->
  53 <= Zpos (digits2_pos mx) ->
  -1074 <= Zpos (digits2_pos mx) + ex - 53 ->
  let n := Zpos (digits2_pos mx) - 53 in
  exists m1 : Z,
    2 ^ 52 <= m1 <= 2 ^ 53
    /\ Z.abs (m1 * (D0 * 2 ^ n) - num) * 2 ^ 53 <= num
    /\ binary_round_aux prec emax sx (Zpos mx) ex lx = rounded sx m1 (ex + n).
Proof.
  intros Hloc Hd He n.
  pose proof (digits2_pos_bounds mx) as Hmx.
  set (d := Zpos (digits2_pos mx)) in *.
  assert (Hn : 0 <= n) by (unfold n; lia).
  unfold binary_round_aux.
  unfold shr_fexp at 1. cbn [Zdigits2]. fold d.
  rewrite (fexp_normal (d + ex)) by lia.
  replace (d + ex - 53 - ex) with n by (unfold n; lia).
  destruct (shr_located num D0 (shr_record_of_loc (Zpos mx) lx) ex n Hn Hloc) as [Hl He'].
  destruct (shr (shr_record_of_loc (Z.pos mx) lx) ex n) as [mrs' e'].
  cbn [fst snd] in Hl, He'. subst e'.
  destruct (round_nearest_even_bound _ _ _ Hl) as [Hm1 Hb].
  set (m1 := round_nearest_even (shr_m mrs') (loc_of_shr_record mrs')) in *.
  assert (Hq : 2 ^ 52 <= shr_m mrs' < 2 ^ 53).
  { destruct Hloc as (HD0 & _ & Hr0 & _). destruct Hl as (_ & _ & Hr & _).
    cbn [shr_m] in Hr0.
    assert (E : shr_m (shr_record_of_loc (Z.pos mx) lx) = Z.pos mx)
      by (destruct lx as [|[]]; reflexivity).
    rewrite E in Hr0.
    apply (quotient_digits num D0 (Z.pos mx) (shr_m mrs') n d); unfold n in *; lia. }
  exists m1. split; [lia|]. split.
  { destruct Hl as (HD & _ & Hr & _). 
    set (D := D0 * 2 ^ n) in *. clearbody D.
    change (2 ^ 53) with 9007199254740992. change (2 ^ 52) with 4503599627370496 in Hq.
    assert (4503599627370496 * D <= shr_m mrs' * D) by nia. lia. }
  unfold rounded.
  assert (Hpos : 0 < m1) by lia.
  destruct m1 as [|q|q] eqn:Eq; try lia.
  destruct (Z.ltb_spec (Z.pos q) (2 ^ 53)) as [Hlt|Hge].
  - (* no carry: fifty-three digits *)
    assert (Hdq : Zpos (digits2_pos q) = 53).
    { apply (digits_unique (Zpos q)); try lia. apply digits2_pos_bounds. }
    unfold shr_fexp. cbn [Zdigits2]. rewrite Hdq.
    rewrite (fexp_normal (53 + (ex + n))) by (unfold n; lia).
    replace (53 + (ex + n) - 53 - (ex + n)) with 0 by lia.
    cbn [shr shr_record_of_loc shr_m]. 
    change (emax - prec) with 971. reflexivity.
  - assert (Eq' : Z.pos q = 2 ^ 53) by lia.
    assert (Eq2 : q = 9007199254740992%positive) by lia. clear Eq'. subst q.
    unfold shr_fexp. cbn [Zdigits2].
    change (Zpos (digits2_pos 9007199254740992)) with 54.
    rewrite (fexp_normal (54 + (ex + n))) by (unfold n; lia).
    replace (54 + (ex + n) - 53 - (ex + n)) with 1 by lia.
    cbn [shr shr_record_of_loc shr_m SpecFloat.iter_pos shr_1].
    change (emax - prec) with 971. reflexivity.
Qed.

Lemma two_nonzero : ~ (2 == 0)%Q.
Proof. discriminate. Qed.

Lemma two_power_pos (e : Z) : (0 < 2 ^ e)%Q.
Proof. apply Qpower_0_lt. reflexivity. Qed.

Lemma scaled_shift (m e n : Z) : 0 <= n -> (scaled m (e + n) == scaled (m * 2 ^ n) e)%Q.
Proof.
  intros Hn. unfold scaled. rewrite Qpower_plus by exact two_nonzero.
  rewrite inject_Z_mult, Zpower_Qpower by exact Hn. 
  change (inject_Z 2) with 2%Q. ring.
Qed.

Lemma rel_bound (num D0 n m1 ex : Z) :
  0 < D0 -> 0 <= n ->
  Z.abs (m1 * (D0 * 2 ^ n) - num) * 2 ^ 53 <= num ->
  rounding_of (scaled m1 (ex + n)) (inject_Z num / inject_Z D0 * 2 ^ ex)%Q.
Proof.
  intros HD Hn Hb. unfold rounding_of. rewrite scaled_shift by exact Hn. unfold scaled.
  pose proof (two_power_pos ex) as HP. set (P := (2 ^ ex)%Q) in *. clearbody P.
  assert (HD' : ~ (inject_Z D0 == 0)%Q).
  { intros E. unfold Qeq in E. cbn in E. lia. }
  assert (HDp : (0 < inject_Z D0)%Q) by (unfold Qlt; cbn; lia).
  set (t := m1 * (D0 * 2 ^ n) - num) in *.
  assert (E1 : (inject_Z (m1 * 2 ^ n) * P - inject_Z num / inject_Z D0 * P
                == inject_Z t * (P / inject_Z D0))%Q).
  { unfold t, Z.sub. rewrite inject_Z_plus, inject_Z_opp, !inject_Z_mult. field. exact HD'. }
  rewrite E1, Qabs_Qmult.
  assert (HK : (0 < P / inject_Z D0)%Q).
  { apply Qlt_shift_div_l; [exact HDp|]. rewrite Qmult_0_l. exact HP. }
  rewrite (Qabs_pos (P / inject_Z D0)) by (apply Qlt_le_weak; exact HK).
  assert (E2 : (inject_Z num / inject_Z D0 * P * unit_roundoff == inject_Z num * unit_roundoff * (P / inject_Z D0))%Q).
  { field. exact HD'. }
  rewrite E2. apply Qmult_le_compat_r; [|apply Qlt_le_weak; exact HK].
  unfold Qle, unit_roundoff, Qabs, Qmult. cbn [Qnum Qden inject_Z].
  change (2 ^ 53) with 9007199254740992 in Hb. lia.
Qed.

Lemma rounded_finite (sx s : bool) (m1 e : Z) (m : positive) (e' : Z) :
  2 ^ 52 <= m1 <= 2 ^ 53 -> -1074 <= e ->
  rounded sx m1 e = S754_finite s m e' ->
  s = sx /\ 2 ^ 52 <= Zpos m < 2 ^ 53 /\ e <= e' <= e + 1 /\ e' <= 971
  /\ valid_binary (S754_finite s m e') = true
  /\ (scaled (Zpos m) e' == scaled m1 e)%Q.
Proof.
  intros Hm He. unfold rounded.
  change (2 ^ 52) with 4503599627370496 in *.
  change (2 ^ 53) with 9007199254740992 in *.
  destruct (Z.ltb_spec m1 9007199254740992) as [Hlt|Hge].
  - destruct (Z.leb_spec e 971) as [Hle|Hgt]; [|discriminate].
    intros E. injection E as <- <- <-.
    assert (Hid : Z.pos (Z.to_pos m1) = m1) by (apply Z2Pos.id; lia).
    rewrite Hid.
    split; [reflexivity|]. split; [lia|]. split; [lia|]. split; [lia|]. split.
    + unfold SpecFloat.valid_binary, bounded, canonical_mantissa.
      assert (Hd : Zpos (digits2_pos (Z.to_pos m1)) = 53).
      { apply (digits_unique m1); try lia;
          try (rewrite <- Hid at 2 3; apply digits2_pos_bounds);
          change (2 ^ (53 - 1)) with 4503599627370496;
          change (2 ^ 53) with 9007199254740992; lia. }
      rewrite Hd, fexp_normal by lia.
      apply andb_true_intro. split; [apply Z.eqb_eq; lia|apply Z.leb_le].
      change (emax - prec) with 971. lia.
    + reflexivity.
  - destruct (Z.leb_spec (e + 1) 971) as [Hle|Hgt]; [|discriminate].
    intros E. injection E as <- <- <-.
    assert (Em : m1 = 9007199254740992) by lia. subst m1.
    change (Z.pos (Z.to_pos 4503599627370496)) with 4503599627370496.
    split; [reflexivity|]. split; [lia|]. split; [lia|]. split; [lia|]. split.
    + unfold SpecFloat.valid_binary, bounded, canonical_mantissa.
      change (Zpos (digits2_pos 4503599627370496)) with 53.
      rewrite fexp_normal by lia.
      apply andb_true_intro. split; [apply Z.eqb_eq; lia|apply Z.leb_le].
      change (emax - prec) with 971. lia.
    + rewrite (scaled_shift _ e 1) by lia. reflexivity.
Qed.

Lemma normal_digits (m : positive) : normal_mantissa m -> Zpos (digits2_pos m) = 53.
Proof.
  intros H. apply (digits_unique (Zpos m)); try lia.
  - apply digits2_pos_bounds.
  - exact H.
Qed.

Lemma located_exact (m : Z) : 0 <= m -> located m 1 (shr_record_of_loc m loc_Exact).
Proof.
  intros Hm. unfold located. cbn [shr_record_of_loc shr_m shr_r shr_s].
  replace (m - m * 1) with 0 by lia. repeat split; try lia; reflexivity.
Qed.

Lemma pos_iter_xO (p k : positive) : Zpos (Pos.iter xO p k) = Zpos p * 2 ^ Zpos k.
Proof.
  induction k as [|k IH] using Pos.peano_ind.
  - cbn [Pos.iter]. rewrite Z.pow_1_r. lia.
  - rewrite Pos.iter_succ, Pos2Z.inj_xO, IH, Pos2Z.inj_succ, Z.pow_succ_r by lia. ring.
Qed.

Lemma rounding_of_ext (v v' x x' : Q) : (v == v')%Q -> (x == x')%Q -> rounding_of v x -> rounding_of v' x'.
Proof. unfold rounding_of. intros -> ->. auto. Qed.

(** Conversion of a positive integer. *)
Lemma normalize_pos (p : positive) :
  exists m e : Z,
    binary_normalize prec emax (Zpos p) 0 false = rounded false m e
    /\ 2 ^ 52 <= m <= 2 ^ 53 /\ e = Zpos (digits2_pos p) - 53
    /\ rounding_of (scaled m e) (inject_Z (Zpos p)).
Proof.
  pose proof (digits2_pos_bounds p) as Hp.
  cbn [binary_normalize]. unfold binary_round.
  set (d := Zpos (digits2_pos p)) in *.
  assert (Hd : 1 <= d) by (unfold d; lia).
  rewrite (fexp_normal (d + 0)) by lia.
  unfold shl_align.
  destruct (d + 0 - 53 - 0) as [|k|k] eqn:Ek.
  - (* fifty-three digits already *)
    destruct (binary_round_aux_normal false p 0 loc_Exact (Zpos p) 1) as (m & Hm & Hb & E);
      [apply located_exact; lia|fold d; lia|fold d; lia|].
    fold d in Hb, E. replace (d - 53) with 0 in * by lia.
    exists m, (0 + 0). split; [exact E|]. split; [exact Hm|]. split; [fold d; lia|].
    apply (rounding_of_ext (scaled m (0 + 0)) _ (inject_Z (Zpos p) / inject_Z 1 * 2 ^ 0)%Q);
      [reflexivity|cbn; field|].
    apply rel_bound; [lia|lia|exact Hb].
  - destruct (binary_round_aux_normal false p 0 loc_Exact (Zpos p) 1) as (m & Hm & Hb & E);
      [apply located_exact; lia|fold d; lia|fold d; lia|].
    fold d in Hb, E.
    exists m, (0 + (d - 53)). split; [exact E|]. split; [exact Hm|]. split; [fold d; lia|].
    apply (rounding_of_ext (scaled m (0 + (d - 53))) _ (inject_Z (Zpos p) / inject_Z 1 * 2 ^ 0)%Q);
      [reflexivity|cbn; field|].
    apply rel_bound; [lia|lia|exact Hb].
  - (* fewer digits: the mantissa is shifted left first *)
    assert (Hk : Zpos k = 53 - d) by lia.
    set (mz := Pos.iter xO p k).
    assert (Hmz : Zpos mz = Zpos p * 2 ^ Zpos k) by apply pos_iter_xO.
    assert (Hn : normal_mantissa mz).
    { unfold normal_mantissa. rewrite Hmz.
      assert (E52 : 2 ^ 52 = 2 ^ (d - 1) * 2 ^ Zpos k)
        by (rewrite <- Z.pow_add_r by lia; f_equal; lia).
      assert (E53 : 2 ^ 53 = 2 ^ d * 2 ^ Zpos k)
        by (rewrite <- Z.pow_add_r by lia; f_equal; lia).
      rewrite E52, E53.
      assert (0 < 2 ^ Zpos k) by (apply Z.pow_pos_nonneg; lia). nia. }
    pose proof (normal_digits mz Hn) as Hdz.
    destruct (binary_round_aux_normal false mz (d + 0 - 53) loc_Exact (Zpos mz) 1)
      as (m & Hm & Hb & E); [apply located_exact; lia|lia|lia|].
    rewrite Hdz in Hb, E. replace (53 - 53) with 0 in * by lia.
    exists m, (d + 0 - 53 + 0). split; [exact E|]. split; [exact Hm|]. split; [fold d; lia|].
    apply (rounding_of_ext (scaled m (d + 0 - 53 + 0)) _
             (inject_Z (Zpos mz) / inject_Z 1 * 2 ^ (d + 0 - 53))%Q); [reflexivity| |].
    + rewrite Hmz. replace (d + 0 - 53) with (- Zpos k) by lia.
      rewrite inject_Z_mult, Zpower_Qpower, Qpower_opp by lia.
      change (inject_Z 2) with 2%Q. field. apply Qpower_not_0. exact two_nonzero.
    + apply rel_bound; [lia|lia|exact Hb].
Qed.

Lemma scaled_mul (m1 e1 m2 e2 : Z) : (scaled m1 e1 * scaled m2 e2 == scaled (m1 * m2) (e1 + e2))%Q.
Proof.
  unfold scaled. rewrite Qpower_plus by exact two_nonzero. rewrite inject_Z_mult. ring.
Qed.

(** Product of two positive normal_mantissa floats. *)
Lemma mul_pos (m1 m2 : positive) (e1 e2 : Z) :
  normal_mantissa m1 -> normal_mantissa m2 -> -1074 <= e1 + e2 + 52 ->
  exists m e : Z,
    SFmul prec emax (S754_finite false m1 e1) (S754_finite false m2 e2) = rounded false m e
    /\ 2 ^ 52 <= m <= 2 ^ 53
    /\ e1 + e2 + 52 <= e <= e1 + e2 + 53
    /\ (e = e1 + e2 + 53 -> m < 2 ^ 53)
    /\ rounding_of (scaled m e) (scaled (Zpos m1) e1 * scaled (Zpos m2) e2).
Proof.
  unfold normal_mantissa. intros H1 H2 He.
  change (2 ^ 52) with 4503599627370496 in *.
  change (2 ^ 53) with 9007199254740992 in *.
  cbn [SFmul xorb].
  pose proof (digits2_pos_bounds (m1 * m2)) as Hp.
  set (d := Zpos (digits2_pos (m1 * m2))) in *.
  rewrite Pos2Z.inj_mul in Hp.
  assert (Hlo : 2 ^ 104 <= Zpos m1 * Zpos m2)
    by (change (2 ^ 104) with (4503599627370496 * 4503599627370496); nia).
  assert (Hhi : Zpos m1 * Zpos m2 <= 9007199254740991 * 9007199254740991) by nia.
  assert (Hd : 105 <= d <= 106).
  { assert (d0 : 0 < d) by (unfold d; lia). split.
    - destruct (Z.le_gt_cases 105 d) as [L|L]; [exact L|].
      assert (2 ^ d <= 2 ^ 104) by (apply Z.pow_le_mono_r; lia). lia.
    - destruct (Z.le_gt_cases d 106) as [L|L]; [exact L|].
      assert (2 ^ 106 <= 2 ^ (d - 1)) by (apply Z.pow_le_mono_r; lia).
      change (2 ^ 106) with (9007199254740992 * 9007199254740992) in *. lia. }
  destruct (binary_round_aux_normal false (m1 * m2) (e1 + e2) loc_Exact
              (Zpos (m1 * m2)) 1) as (m & Hm & Hb & E);
    [apply located_exact; lia|fold d; lia|fold d; lia|].
  fold d in Hb, E.
  exists m, (e1 + e2 + (d - 53)). split; [exact E|].
  change (2 ^ 52) with 4503599627370496 in *.
  change (2 ^ 53) with 9007199254740992 in *.
  split; [exact Hm|]. split; [lia|]. split.
  - intros Ed. assert (d = 106) by lia. 
    replace (d - 53) with 53 in Hb by lia.
    change (2 ^ 53) with 9007199254740992 in Hb. rewrite Pos2Z.inj_mul in Hb. lia.
  - apply (rounding_of_ext (scaled m (e1 + e2 + (d - 53))) _
             (inject_Z (Zpos (m1 * m2)) / inject_Z 1 * 2 ^ (e1 + e2))%Q); [reflexivity| |].
    + rewrite scaled_mul. unfold scaled. rewrite Pos2Z.inj_mul. field.
    + apply rel_bound; [lia|lia|exact Hb].
Qed.

Ltac decide_bits :=
  cbn [shr_record_of_loc shr_m shr_r shr_s]; repeat split; try lia;
  repeat match goal with
  | |- context [?x <=? ?y] => destruct (Z.leb_spec x y)
  | |- context [?x =? ?y] => destruct (Z.eqb_spec x y)
  end; cbn [negb andb]; try reflexivity; try lia.

Lemma new_location_located (q nb k : Z) :
  0 <= q -> 0 <= k < nb ->
  located (q * nb + k) nb (shr_record_of_loc q (new_location nb k)).
Proof.
  intros Hq Hk. unfold located, new_location, new_location_even, new_location_odd.
  replace (q * nb + k - shr_m _ * nb) with k.
  2:{ destruct (Z.even nb), (k =? 0); try destruct (_ ?= _); cbn [shr_record_of_loc shr_m]; lia. }
  destruct (Z.even nb) eqn:Ev.
  - destruct (Z.eqb_spec k 0) as [->|Hk0]; [decide_bits|].
    destruct (Z.compare_spec (2 * k) nb) as [C|C|C]; decide_bits.
  - assert (Hodd : Z.odd nb = true) by (rewrite <- Z.negb_even, Ev; reflexivity).
    apply Z.odd_spec in Hodd as [j Hj].
    destruct (Z.eqb_spec k 0) as [->|Hk0]; [decide_bits|].
    destruct (Z.compare_spec (2 * k + 1) nb) as [C|C|C]; decide_bits.
Qed.

(** Quotient of two positive normal_mantissa floats. *)
Lemma div_pos (m1 m2 : positive) (e1 e2 : Z) :
  normal_mantissa m1 -> normal_mantissa m2 -> -1074 <= e1 - e2 - 53 ->
  exists m e : Z,
    SFdiv prec emax (S754_finite false m1 e1) (S754_finite false m2 e2) = rounded false m e
    /\ 2 ^ 52 <= m <= 2 ^ 53
    /\ e1 - e2 - 53 <= e <= e1 - e2 - 52
    /\ rounding_of (scaled m e) (scaled (Zpos m1) e1 / scaled (Zpos m2) e2).
Proof.
  intros H1 H2 He.
  pose proof (normal_digits m1 H1) as Hd1. pose proof (normal_digits m2 H2) as Hd2.
  unfold normal_mantissa in H1, H2.
  change (2 ^ 52) with 4503599627370496 in *.
  change (2 ^ 53) with 9007199254740992 in *.
  cbn [SFdiv xorb]. unfold SFdiv_core_binary. cbn [Zdigits2]. rewrite Hd1, Hd2.
  replace (53 + e1 - (53 + e2)) with (e1 - e2) by lia.
  rewrite (fexp_normal (e1 - e2)) by lia.
  rewrite Z.min_l by lia.
  replace (e1 - e2 - (e1 - e2 - 53)) with 53 by lia.
  rewrite Z.shiftl_mul_pow2 by lia. change (2 ^ 53) with 9007199254740992.
  pose proof (Z_div_mod (Zpos m1 * 9007199254740992) (Zpos m2) ltac:(lia)) as Hdm.
  destruct (Z.div_eucl (Z.pos m1 * 9007199254740992) (Z.pos m2)) as [q r].
  destruct Hdm as [Eq Hr].
  assert (Hq : 4503599627370496 <= q < 4 * 4503599627370496) by nia.
  destruct q as [|qp|qp]; try lia.
  pose proof (digits2_pos_bounds qp) as Hqp.
  set (d := Zpos (digits2_pos qp)) in *.
  assert (Hd : 53 <= d <= 54).
  { assert (d0 : 0 < d) by (unfold d; lia). split.
    - destruct (Z.le_gt_cases 53 d) as [L|L]; [exact L|].
      assert (2 ^ d <= 2 ^ 52) by (apply Z.pow_le_mono_r; lia).
      change (2 ^ 52) with 4503599627370496 in *. lia.
    - destruct (Z.le_gt_cases d 54) as [L|L]; [exact L|].
      assert (2 ^ 54 <= 2 ^ (d - 1)) by (apply Z.pow_le_mono_r; lia).
      change (2 ^ 54) with (4 * 4503599627370496) in *. lia. }
  destruct (binary_round_aux_normal false qp (e1 - e2 - 53)
              (new_location (Zpos m2) r) (Zpos m1 * 9007199254740992) (Zpos m2))
    as (m & Hm & Hb & E).
  { rewrite Eq. replace (Z.pos m2 * Z.pos qp + r) with (Z.pos qp * Z.pos m2 + r) by ring.
    apply new_location_located; lia. }
  { fold d; lia. }
  { fold d; lia. }
  fold d in Hb, E.
  exists m, (e1 - e2 - 53 + (d - 53)). split; [exact E|].
  split; [exact Hm|]. split; [lia|].
  apply (rounding_of_ext (scaled m (e1 - e2 - 53 + (d - 53))) _
           (inject_Z (Zpos m1 * 9007199254740992) / inject_Z (Zpos m2)
            * 2 ^ (e1 - e2 - 53))%Q); [reflexivity| |].
  - unfold scaled.
    replace (e1 - e2 - 53) with (e1 + (- e2 + - (53))) by lia.
    rewrite !Qpower_plus, !Qpower_opp by exact two_nonzero.
    rewrite inject_Z_mult.
    change (inject_Z 9007199254740992) with (2 ^ 53)%Q.
    field. repeat split; try (apply Qpower_not_0; exact two_nonzero).
    discriminate.
  - apply rel_bound; [lia|lia|exact Hb].
Qed.

Section RelativeError.

Local Open Scope Q_scope.

Lemma near_of_rounding (v x : Q) : rounding_of v x -> near v x unit_roundoff.
Proof.
  unfold rounding_of, near. intros H.
  assert (Hu : 0 < unit_roundoff) by reflexivity.
  pose proof (Qabs_nonneg (v - x)) as Hn.
  assert (Hx : 0 <= x).
  { destruct (Qlt_le_dec x 0) as [L|L]; [|exact L]. exfalso.
    assert (x * unit_roundoff < 0) by nra. lra. }
  split; [exact Hx|]. apply Qabs_Qle_condition in H. lra.
Qed.

Lemma near_mul (v1 x1 r1 v2 x2 r2 : Q) :
  0 <= r1 <= 1 -> 0 <= r2 <= 1 ->
  near v1 x1 r1 -> near v2 x2 r2 -> near (v1 * v2) (x1 * x2) (r1 + r2 + r1 * r2).
Proof.
  unfold near. intros [Hr1 Hr1'] [Hr2 Hr2'] (Hx1 & L1 & U1) (Hx2 & L2 & U2).
  assert (A1 : 0 <= x1 * (1 - r1)) by nra.
  assert (A2 : 0 <= x2 * (1 - r2)) by nra.
  split; [nra|]. split.
  - apply Qle_trans with (x1 * (1 - r1) * (x2 * (1 - r2))); [nra|].
    apply Qle_trans with (v1 * (x2 * (1 - r2))); nra.
  - apply Qle_trans with (x1 * (1 + r1) * (x2 * (1 + r2))); [|nra].
    apply Qle_trans with (v1 * (x2 * (1 + r2))); nra.
Qed.

Lemma near_trans (v w x r1 r2 : Q) :
  0 <= r1 <= 1 -> 0 <= r2 <= 1 ->
  near v w r1 -> near w x r2 -> near v x (r1 + r2 + r1 * r2).
Proof.
  unfold near. intros [Hr1 Hr1'] [Hr2 Hr2'] (Hw & L1 & U1) (Hx & L2 & U2).
  split; [exact Hx|]. split.
  - apply Qle_trans with (x * (1 - r2) * (1 - r1)); [nra|].
    apply Qle_trans with (w * (1 - r1)); nra.
  - apply Qle_trans with (x * (1 + r2) * (1 + r1)); [|nra].
    apply Qle_trans with (w * (1 + r1)); nra.
Qed.

Lemma near_ext (v v' x x' r : Q) : v == v' -> x == x' -> near v x r -> near v' x' r.
Proof. unfold near. intros -> ->. auto. Qed.

Lemma near_weaken (v x r r' : Q) : r <= r' -> near v x r -> near v x r'.
Proof. unfold near. intros Hr (Hx & L & U). split; [exact Hx|]. split; nra. Qed.

Lemma near_div (v x r k : Q) : 0 < k -> near v x r -> near (v / k) (x / k) r.
Proof.
  unfold near. intros Hk (Hx & L & U).
  assert (Hi : 0 < / k) by (apply Qinv_lt_0_compat; exact Hk).
  unfold Qdiv. set (i := / k) in *. clearbody i. split; [nra|]. split.
  - apply Qle_trans with (x * (1 - r) * i); [|nra].
    apply Qle_lteq. right. ring.
  - apply Qle_trans with (x * (1 + r) * i); [nra|].
    apply Qle_lteq. right. ring.
Qed.

Lemma near_abs (v x r : Q) : near v x r -> Qabs (v - x) <= x * r.
Proof. unfold near. intros (Hx & L & U). apply Qabs_Qle_condition. lra. Qed.

End RelativeError.

Lemma exact_scaled (f : float) : (exact f == value_of (Prim2SF f))%Q.
Proof.
  unfold exact, value_of. destruct (Prim2SF f) as [s|s| |s m e]; try reflexivity.
  assert (E : ((if 0 <=? e then inject_Z (Z.pos m * 2 ^ e)
                else Z.pos m # Z.to_pos (2 ^ (- e))) == scaled (Zpos m) e)%Q).
  { unfold scaled. destruct (Z.leb_spec 0 e) as [He|He].
    - rewrite inject_Z_mult, Zpower_Qpower by exact He. reflexivity.
    - assert (HD : 0 < 2 ^ (- e)) by (apply Z.pow_pos_nonneg; lia).
      rewrite Qmake_Qdiv, Z2Pos.id by exact HD.
      rewrite Zpower_Qpower by lia. change (inject_Z 2) with 2%Q.
      rewrite Qpower_opp. field. apply Qpower_not_0. exact two_nonzero. }
  destruct s; rewrite E; reflexivity.
Qed.

Lemma rounded_is_finite (sx : bool) (m e : Z) :
  2 ^ 52 <= m <= 2 ^ 53 ->
  (m < 2 ^ 53 -> e <= 971) -> (m = 2 ^ 53 -> e + 1 <= 971) ->
  exists m' e', rounded sx m e = S754_finite sx m' e'.
Proof.
  intros Hm H1 H2. unfold rounded.
  destruct (Z.ltb_spec m (2 ^ 53)) as [L|L].
  - destruct (Z.leb_spec e 971); [eauto|]. specialize (H1 L). lia.
  - destruct (Z.leb_spec (e + 1) 971); [eauto|]. assert (m = 2 ^ 53) by lia. 
    specialize (H2 ltac:(assumption)). lia.
Qed.

Lemma mul_prim (f1 f2 : float) (m1 m2 : positive) (e1 e2 : Z) :
  positive_normal f1 m1 e1 -> positive_normal f2 m2 e2 ->
  -1074 <= e1 + e2 + 52 -> e1 + e2 + 53 <= 971 ->
  exists m e,
    positive_normal (f1 * f2) m e /\ e1 + e2 + 52 <= e <= e1 + e2 + 53
    /\ rounding_of (scaled (Zpos m) e) (scaled (Zpos m1) e1 * scaled (Zpos m2) e2).
Proof.
  intros [E1 N1] [E2 N2] Hlo Hhi.
  destruct (mul_pos m1 m2 e1 e2 N1 N2 Hlo) as (m' & e' & E & Hm & He & Hc & Ha).
  destruct (rounded_is_finite false m' e' Hm) as (m & e & Er); [lia| |].
  { intros ->. destruct (Z.eq_dec e' (e1 + e2 + 53)) as [X|X]; [|lia].
    specialize (Hc X). lia. }
  destruct (rounded_finite false false m' e' m e Hm ltac:(lia) Er)
    as (_ & Hn & Hee & He971 & Hv & Hval).
  exists m, e. split; [split|split].
  - rewrite mul_spec, E1, E2. unfold SF64mul. rewrite E, Er. reflexivity.
  - exact Hn.
  - split; [lia|]. 
    destruct (Z.eq_dec e (e' + 1)) as [X|X]; [|lia].
    (* a carry happened: e' is the lower exponent *)
    destruct (Z.eq_dec e' (e1 + e2 + 53)) as [Y|Y]; [|lia].
    specialize (Hc Y). unfold rounded in Er.
    destruct (Z.ltb_spec m' (2 ^ 53)) as [L|L]; [|lia].
    destruct (e' <=? 971); [injection Er as <- <-; lia|discriminate].
  - apply (rounding_of_ext (scaled m' e') _ _ _ (symmetry Hval) (reflexivity _)). exact Ha.
Qed.

Lemma div_prim (f1 f2 : float) (m1 m2 : positive) (e1 e2 : Z) :
  positive_normal f1 m1 e1 -> positive_normal f2 m2 e2 ->
  -1074 <= e1 - e2 - 53 -> e1 - e2 - 51 <= 971 ->
  exists m e,
    positive_normal (f1 / f2) m e /\ e1 - e2 - 53 <= e <= e1 - e2 - 51
    /\ rounding_of (scaled (Zpos m) e) (scaled (Zpos m1) e1 / scaled (Zpos m2) e2).
Proof.
  intros [E1 N1] [E2 N2] Hlo Hhi.
  destruct (div_pos m1 m2 e1 e2 N1 N2 Hlo) as (m' & e' & E & Hm & He & Ha).
  destruct (rounded_is_finite false m' e' Hm) as (m & e & Er); [lia|lia|].
  destruct (rounded_finite false false m' e' m e Hm ltac:(lia) Er)
    as (_ & Hn & Hee & He971 & Hv & Hval).
  exists m, e. split; [split|split].
  - rewrite div_spec, E1, E2. unfold SF64div. rewrite E, Er. reflexivity.
  - exact Hn.
  - lia.
  - apply (rounding_of_ext (scaled m' e') _ _ _ (symmetry Hval) (reflexivity _)). exact Ha.
Qed.

Lemma float_of_int_pos (p : positive) (fa : float) :
  float_of_int (Zpos p) = Ret fa ->
  exists m e,
    positive_normal fa m e /\ -52 <= e <= 971
    /\ rounding_of (scaled (Zpos m) e) (inject_Z (Zpos p)).
Proof.
  unfold float_of_int.
  destruct (normalize_pos p) as (m' & e' & E & Hm & He & Ha). rewrite E.
  assert (He' : -52 <= e') by lia.
  destruct (rounded false m' e') as [s|s| |s m e] eqn:Er; try discriminate.
  - exfalso. unfold rounded in Er. 
    destruct (m' <? 2 ^ 53); [destruct (e' <=? 971)|destruct (e' + 1 <=? 971)]; discriminate.
  - exfalso. unfold rounded in Er. 
    destruct (m' <? 2 ^ 53); [destruct (e' <=? 971)|destruct (e' + 1 <=? 971)]; discriminate.
  - intros [= <-].
    destruct (rounded_finite false s m' e' m e Hm ltac:(lia) Er)
      as (-> & Hn & Hee & He971 & Hv & Hval).
    exists m, e. split; [split|split].
    + exact (Prim2SF_SF2Prim (S754_finite false m e) Hv).
    + exact Hn.
    + lia.
    + apply (rounding_of_ext (scaled m' e') _ _ _ (symmetry Hval) (reflexivity _)). exact Ha.
Qed.

(** Every integer below [2^1023] converts. *)
Lemma float_of_int_returns (a : Z) :
  0 <= a < 2 ^ 1023 -> exists fa, float_of_int a = Ret fa.
Proof.
  intros [Ha Hlt]. destruct a as [|p|p]; [eexists; reflexivity| |lia].
  unfold float_of_int.
  destruct (normalize_pos p) as (m' & e' & E & Hm & He & _). rewrite E.
  pose proof (digits2_pos_bounds p) as Hp.
  assert (Hd : Zpos (digits2_pos p) <= 1023).
  { destruct (Z.le_gt_cases (Zpos (digits2_pos p)) 1023) as [L|L]; [exact L|].
    assert (2 ^ 1023 <= 2 ^ (Zpos (digits2_pos p) - 1)) by (apply Z.pow_le_mono_r; lia).
    lia. }
  destruct (rounded_is_finite false m' e' Hm) as (m & e & Er); [lia|lia|].
  rewrite Er. eexists. reflexivity.
Qed.

Lemma positive_normal_0_65 : positive_normal 0.65 5854679515581645 (-53).
Proof. split; [reflexivity|]. unfold normal_mantissa. cbn. lia. Qed.

Lemma positive_normal_1000 : positive_normal 1000 8796093022208000 (-43).
Proof. split; [reflexivity|]. unfold normal_mantissa. cbn. lia. Qed.

Lemma near_0_65 : near (scaled 5854679515581645 (-53)) 0.65 unit_roundoff.
Proof. unfold near. repeat split; vm_compute; discriminate. Qed.

Lemma scaled_1000 : (scaled 8796093022208000 (-43) == 1000)%Q.
Proof. vm_compute. reflexivity. Qed.

Lemma unit_roundoff_small : (0 <= unit_roundoff <= 1)%Q.
Proof. split; vm_compute; discriminate. Qed.

Lemma distance_tolerance (a : Z) (fa : float) :
  0 <= a -> float_of_int a = Ret fa ->
  finite_float (fa * 0.65 / 1000) = true
  /\ (Qabs (exact (fa * 0.65 / 1000) - inject_Z a * 0.00065)
      <= inject_Z a * 0.00065 * (1 # 1125899906842624))%Q.
Proof.
  intros Ha Hfa. destruct a as [|p|p]; [| |lia].
  - assert (E : fa = 0%float).
    { vm_compute in Hfa. now injection Hfa as <-. }
    subst fa. split; [reflexivity|]. vm_compute. discriminate.
  - destruct (float_of_int_pos p fa Hfa) as (m0 & e0 & P0 & He0 & A0).
    destruct (mul_prim fa 0.65 m0 _ e0 _ P0 positive_normal_0_65) as (m1 & e1 & P1 & He1 & A1);
      [lia|lia|].
    destruct (div_prim (fa * 0.65) 1000 m1 _ e1 _ P1 positive_normal_1000)
      as (m2 & e2 & P2 & He2 & A2); [lia|lia|].
    split.
    + unfold finite_float. destruct P2 as [-> _]. reflexivity.
    + rewrite exact_scaled. destruct P2 as [-> _]. cbn [value_of].
      apply near_of_rounding in A0, A1, A2.
      pose proof unit_roundoff_small as Hu.
      pose proof (near_mul _ _ _ _ _ _ Hu Hu A0 near_0_65) as B1.
      assert (Hr2 : (0 <= unit_roundoff + unit_roundoff + unit_roundoff * unit_roundoff <= 1)%Q) by (split; vm_compute; discriminate).
      pose proof (near_trans _ _ _ _ _ Hu Hr2 A1 B1) as C1.
      pose proof (near_div _ _ _ 1000%Q ltac:(reflexivity) C1) as D1.
      assert (Hr3 : (0 <= unit_roundoff + (unit_roundoff + unit_roundoff + unit_roundoff * unit_roundoff) + unit_roundoff * (unit_roundoff + unit_roundoff + unit_roundoff * unit_roundoff) <= 1)%Q)
        by (split; vm_compute; discriminate).
      assert (A2' : near (scaled (Zpos m2) e2) (scaled (Zpos m1) e1 / 1000) unit_roundoff).
      { assert (E1000 : (scaled (Zpos m1) e1 / scaled 8796093022208000 (-43)
                         == scaled (Zpos m1) e1 / 1000)%Q) by (rewrite scaled_1000; reflexivity).
        exact (near_ext _ _ _ _ _ (reflexivity _) E1000 A2). }
      pose proof (near_trans _ _ _ _ _ Hu Hr3 A2' D1) as F.
      apply near_abs.
      apply (near_ext _ _ (inject_Z (Z.pos p) * 0.65 / 1000)%Q _ _ (reflexivity _));
        [field|].
      eapply near_weaken; [|exact F]. vm_compute. discriminate.
Qed.

(** The calorie formulas in terms of the mean speed the method returns. *)
Lemma running_calories_of_speed_exact (a d w : Q) :
  (0 < d)%Q ->
  exists s : Q,
    get_mean_speed (Running a d w) = Ret s
    /\ returns_num (get_spent_calories (Running a d w))
         (fun c => c == (18 * s - 20) * w / 1000 * (d * 60))%Q.
Proof.
  intros Hd.
  pose proof (running_mean_speed_exact a d w Hd) as Hs.
  pose proof (running_calories_exact a d w Hd) as Hc.
  destruct (get_mean_speed (Running a d w)) as [s|e] eqn:Es; [|destruct Hs].
  exists s. split; [reflexivity|].
  destruct (get_spent_calories (Running a d w)) as [[?|c|?]|e];
    cbn in Hc, Hs; try contradiction.
  cbn. rewrite Hc, Hs. reflexivity.
Qed.

Lemma negative_factor (s w d c : Q) :
  (0 < d)%Q -> (0 < w)%Q ->
  (c == (18 * s - 20) * w / 1000 * (d * 60))%Q ->
  (s < 20 / 18 <-> c < 0)%Q.
Proof.
  intros Hd Hw Hc.
  assert (E : (c == (18 * s - 20) * (w * d * (60 / 1000)))%Q) by (rewrite Hc; field).
  assert (P : (0 < w * d * (60 / 1000))%Q).
  { apply Qmult_lt_0_compat; [apply Qmult_lt_0_compat; assumption | reflexivity]. }
  set (k := (w * d * (60 / 1000))%Q) in *. clearbody k. rewrite E. clear E Hc.
  assert (T : (20 / 18 == 10 # 9)%Q) by reflexivity. rewrite T.
  split; intros H.
  - assert ((18 * s - 20 < 0)%Q) by lra. nra.
  - destruct (Qlt_le_dec s (10 # 9)) as [L|L]; [exact L|].
    assert ((0 <= 18 * s - 20)%Q) by lra. nra.
Qed.

(** ** Running *)

(** C6. A [Running] workout with a positive duration covers
    [action * 0.65 / 1000] km, which is [action * 0.00065] km, and its mean
    speed is that distance divided by the duration.  On CPython's numbers
    the two methods return exactly the binary64 value of
    [float(action) * 0.65 / 1000] (and that value over the duration),
    raising only if [action] is too large for a float; for every step
    count below [2^1023] they return, and the distance is
    [action * 0.00065] up to a relative error of [2^-50], the three
    roundings of the computation.  In exact arithmetic the distance is
    [action * 0.00065] with no error at all. *)
Theorem running_distance_and_speed :
  (forall (a : Z) (d w : float),
      (0 <? d)%float = true ->
      get_distance (Running (PyInt a) (PyFloat d) (PyFloat w))
      = (fun fa => PyFloat (fa * 0.65 / 1000)%float) <$> float_of_int a
      /\ get_mean_speed (Running (PyInt a) (PyFloat d) (PyFloat w))
         = (fun fa => PyFloat (fa * 0.65 / 1000 / d)%float) <$> float_of_int a)
  /\ (forall (a : Z) (d w : float),
      0 <= a < 2 ^ 1023 -> (0 <? d)%float = true ->
      exists x : float,
        get_distance (Running (PyInt a) (PyFloat d) (PyFloat w)) = Ret (PyFloat x)
        /\ finite_float x = true
        /\ (Qabs (exact x - inject_Z a * 0.00065)
            <= inject_Z a * 0.00065 * (1 # 1125899906842624))%Q
        /\ get_mean_speed (Running (PyInt a) (PyFloat d) (PyFloat w))
           = Ret (PyFloat (x / d)%float))
  /\ (forall a d w : Q,
      (0 < d)%Q ->
      exists x : Q,
        get_distance (Running a d w) = Ret x
        /\ (x == a * 0.00065)%Q
        /\ returns (get_mean_speed (Running a d w)) (fun s => s == x / d)%Q).
Proof.
  split; [|split].
  - intros a d w Hd. split.
    + now apply running_distance_binary64.
    + now apply running_mean_speed_binary64.
  - intros a d w Ha Hd.
    destruct (float_of_int_returns a Ha) as [fa Hfa].
    destruct (distance_tolerance a fa (proj1 Ha) Hfa) as [Hfin Hclose].
    exists (fa * 0.65 / 1000)%float.
    rewrite running_distance_binary64, running_mean_speed_binary64 by exact Hd.
    rewrite Hfa. repeat split; assumption.
  - intros a d w Hd.
    pose proof (running_distance_exact a d w) as Hx.
    pose proof (running_mean_speed_exact a d w Hd) as Hs.
    destruct (get_distance (Running a d w)) as [x|e] eqn:Ex; [|destruct Hx].
    exists x. split; [reflexivity|]. split; [exact Hx|].
    destruct (get_mean_speed (Running a d w)) as [s|e]; [|destruct Hs].
    cbn in *. rewrite Hs, Hx. reflexivity.
Qed.

Lemma running_distance_and_speed_15000 :
  0 <= 15000 < 2 ^ 1023 /\ (0 <? 1)%float = true
  /\ exists x : float,
       get_distance (Running (PyInt 15000) (PyFloat 1) (PyFloat 75)) = Ret (PyFloat x)
       /\ finite_float x = true
       /\ (Qabs (exact x - inject_Z 15000 * 0.00065)
           <= inject_Z 15000 * 0.00065 * (1 # 1125899906842624))%Q
       /\ get_mean_speed (Running (PyInt 15000) (PyFloat 1) (PyFloat 75))
          = Ret (PyFloat (x / 1)%float).
Proof.
  split; [split; [discriminate|reflexivity]|]. split; [reflexivity|].
  apply (proj1 (proj2 running_distance_and_speed) 15000 1%float 75%float).
  - split; [discriminate|reflexivity].
  - reflexivity.
Defined.

(** C2, as the code has it.  The [Running] workout built from
    action=15000, duration=1, weight=75 covers 9.75 km at 9.75 km/h and
    spends 699.75 kcal, the value of
    [(18 * mean_speed - 20) * weight / 1000 * (duration * 60)]; the
    calories of every [Running] workout with a positive duration follow
    that formula. *)
Theorem running_example_15000 :
  let run := Running (PyInt 15000) (PyInt 1) (PyInt 75) in
  (get_distance run = Ret (PyFloat 9.75)
   /\ get_mean_speed run = Ret (PyFloat 9.75)
   /\ get_spent_calories run = Ret (Num (PyFloat 699.75))
   /\ ((18 * 9.75 - 20) * 75 / 1000 * (1 * 60))%float = 699.75%float)
  /\ (returns (get_distance (Running 15000%Q 1%Q 75%Q)) (fun x => x == 9.75)%Q
      /\ returns (get_mean_speed (Running 15000%Q 1%Q 75%Q)) (fun s => s == 9.75)%Q
      /\ returns_num (get_spent_calories (Running 15000%Q 1%Q 75%Q)) (fun c => c == 699.75)%Q
      /\ ((18 * 9.75 - 20) * 75 / 1000 * (1 * 60) == 699.75)%Q)
  /\ (forall (a : Z) (d w : float),
      (0 <? d)%float = true ->
      get_spent_calories (Running (PyInt a) (PyFloat d) (PyFloat w))
      = (fun fa => Num (PyFloat
             ((18 * (fa * 0.65 / 1000 / d) - 20) * w / 1000 * (d * 60))%float))
        <$> float_of_int a)
  /\ (forall a d w : Q,
      (0 < d)%Q ->
      exists s : Q,
        get_mean_speed (Running a d w) = Ret s
        /\ returns_num (get_spent_calories (Running a d w))
             (fun c => c == (18 * s - 20) * w / 1000 * (d * 60))%Q).
Proof.
  intros run. split; [|split; [|split]].
  - repeat split; vm_compute; reflexivity.
  - repeat split; vm_compute; reflexivity.
  - intros a d w Hd. now apply running_calories_binary64.
  - intros a d w Hd. now apply running_calories_of_speed_exact.
Qed.

Lemma running_example_formula_15000 :
  (0 <? 1)%float = true
  /\ get_spent_calories (Running (PyInt 15000) (PyFloat 1) (PyFloat 75))
     = (fun fa => Num (PyFloat
            ((18 * (fa * 0.65 / 1000 / 1) - 20) * 75 / 1000 * (1 * 60))%float))
       <$> float_of_int 15000.
Proof.
  split; [reflexivity|].
  apply (proj1 (proj2 (proj2 running_example_15000)) 15000 1%float 75%float).
  reflexivity.
Defined.

(** C2, as stated, fails: the calories of that workout are not 683.25,
    neither on CPython's numbers nor in exact arithmetic, and 683.25 is not
    the value of the formula the claim itself gives. *)
Lemma running_example_not_683_25 :
  ~ (get_distance (Running (PyInt 15000) (PyInt 1) (PyInt 75)) = Ret (PyFloat 9.75)
     /\ get_mean_speed (Running (PyInt 15000) (PyInt 1) (PyInt 75)) = Ret (PyFloat 9.75)
     /\ get_spent_calories (Running (PyInt 15000) (PyInt 1) (PyInt 75))
        = Ret (Num (PyFloat 683.25)))
  /\ ~ returns_num (get_spent_calories (Running 15000%Q 1%Q 75%Q)) (fun c => c == 683.25)%Q
  /\ ~ ((18 * 9.75 - 20) * 75 / 1000 * (1 * 60) == 683.25)%Q.
Proof.
  split; [|split].
  - intros (_ & _ & Hc).
    apply (f_equal (fun o => match o with
                             | Ret (Num (PyFloat x)) => (x =? 683.25)%float
                             | _ => false
                             end)) in Hc.
    vm_compute in Hc. discriminate Hc.
  - vm_compute. discriminate.
  - vm_compute. discriminate.
Qed.

(** C10. Some valid [Running] inputs give negative calories: the workout
    action=1000, duration=1, weight=75 has mean speed 0.65 km/h, below
    20/18, and [get_spent_calories] returns about -37.35.  In exact
    arithmetic, for a positive duration and weight the result is negative
    exactly when the mean speed is below 20/18 km/h. *)
Theorem running_calories_negative :
  (let run := Running (PyInt 1000) (PyInt 1) (PyInt 75) in
   get_mean_speed run = Ret (PyFloat 0.65)
   /\ (0.65 <? 20 / 18)%float = true
   /\ get_spent_calories run = Ret (Num (PyFloat (-37.34999999999999)))
   /\ (-37.34999999999999 <? 0)%float = true
   /\ close_to (-37.34999999999999) (-37.35))
  /\ returns_num (get_spent_calories (Running 1000%Q 1%Q 75%Q)) (fun c => c == -37.35)%Q
  /\ (forall a d w : Q,
      (0 <= a)%Q -> (0 < d)%Q -> (0 < w)%Q ->
      exists s : Q,
        get_mean_speed (Running a d w) = Ret s
        /\ ((s < 20 / 18)%Q
            <-> returns_num (get_spent_calories (Running a d w)) (fun c => c < 0)%Q)).
Proof.
  split; [|split].
  - cbv zeta. repeat split; try (vm_compute; reflexivity). vm_compute; discriminate.
  - vm_compute. reflexivity.
  - intros a d w _ Hd Hw.
    destruct (running_calories_of_speed_exact a d w Hd) as (s & Es & Hc).
    exists s. split; [exact Es|].
    destruct (get_spent_calories (Running a d w)) as [[?|c|?]|e];
      cbn in Hc; try contradiction.
    cbn. exact (negative_factor s w d c Hd Hw Hc).
Qed.

Lemma running_calories_negative_slow_walk :
  (0 <= 1000)%Q /\ (0 < 1)%Q /\ (0 < 75)%Q
  /\ exists s : Q,
       get_mean_speed (Running 1000%Q 1%Q 75%Q) = Ret s
       /\ ((s < 20 / 18)%Q
           <-> returns_num (get_spent_calories (Running 1000%Q 1%Q 75%Q)) (fun c => c < 0)%Q).
Proof.
  split; [discriminate|]. split; [reflexivity|]. split; [reflexivity|].
  apply (proj2 (proj2 running_calories_negative) 1000%Q 1%Q 75%Q);
    [discriminate | reflexivity | reflexivity].
Defined.

(** ** Swimming *)

(** C5. A [Swimming] workout with a positive duration has mean speed
    [length_pool * count_pool / 1000 / duration] and spends
    [(mean_speed + 1.1) * (2 * weight)] calories, on CPython's numbers
    (bit for bit, raising only if [count_pool] is too large for a float,
    never for a lap count below [2^1023]) and in exact arithmetic; for
    action=720, duration=1, weight=80, length_pool=25, count_pool=40 the
    mean speed is 1.0 km/h and the calories are 336.0. *)
Theorem swimming_speed_and_calories :
  (forall (act : num) (d w lp : float) (cp : Z),
      (0 <? d)%float = true ->
      get_mean_speed (Swimming act (PyFloat d) (PyFloat w) (PyFloat lp) (PyInt cp))
      = (fun fc => PyFloat (lp * fc / 1000 / d)%float) <$> float_of_int cp
      /\ get_spent_calories (Swimming act (PyFloat d) (PyFloat w) (PyFloat lp) (PyInt cp))
         = (fun fc => Num (PyFloat ((lp * fc / 1000 / d + 1.1) * (2 * w))%float))
           <$> float_of_int cp)
  /\ (forall a d w lp cp : Q,
      (0 < d)%Q ->
      exists s : Q,
        get_mean_speed (Swimming a d w lp cp) = Ret s
        /\ (s == lp * cp / 1000 / d)%Q
        /\ returns_num (get_spent_calories (Swimming a d w lp cp))
             (fun c => c == (s + 1.1) * (2 * w))%Q)
  /\ (let swim := Swimming (PyInt 720) (PyInt 1) (PyInt 80) (PyInt 25) (PyInt 40) in
      get_mean_speed swim = Ret (PyFloat 1)
      /\ get_spent_calories swim = Ret (Num (PyFloat 336)))
  /\ (let swim := Swimming 720%Q 1%Q 80%Q 25%Q 40%Q in
      returns (get_mean_speed swim) (fun s => s == 1)%Q
      /\ returns_num (get_spent_calories swim) (fun c => c == 336)%Q)
  /\ (forall (act : num) (d w lp : float) (cp : Z),
      0 <= cp < 2 ^ 1023 -> (0 <? d)%float = true ->
      exists s : float,
        get_mean_speed (Swimming act (PyFloat d) (PyFloat w) (PyFloat lp) (PyInt cp))
        = Ret (PyFloat s)
        /\ get_spent_calories (Swimming act (PyFloat d) (PyFloat w) (PyFloat lp) (PyInt cp))
           = Ret (Num (PyFloat ((s + 1.1) * (2 * w))%float))).
Proof.
  split; [|split; [|split; [|split]]]; cycle 4.
  { intros act d w lp cp Hcp Hd.
    destruct (float_of_int_returns cp Hcp) as [fc Hfc].
    exists (lp * fc / 1000 / d)%float.
    rewrite swimming_mean_speed_binary64, swimming_calories_binary64 by exact Hd.
    rewrite Hfc. split; reflexivity. }
  - intros act d w lp cp Hd. split.
    + now apply swimming_mean_speed_binary64.
    + now apply swimming_calories_binary64.
  - intros a d w lp cp Hd.
    pose proof (swimming_mean_speed_exact a d w Hd lp cp) as Hs.
    pose proof (swimming_calories_exact a d w Hd lp cp) as Hc.
    destruct (get_mean_speed (Swimming a d w lp cp)) as [s|e] eqn:Es; [|destruct Hs].
    exists s. split; [reflexivity|]. split; [exact Hs|].
    destruct (get_spent_calories (Swimming a d w lp cp)) as [[?|c|?]|e];
      cbn in Hc, Hs; try contradiction.
    cbn. rewrite Hc, Hs. reflexivity.
  - cbv zeta. split; vm_compute; reflexivity.
  - cbv zeta. split; vm_compute; reflexivity.
Qed.

Lemma swimming_speed_and_calories_script :
  (0 <? 1)%float = true
  /\ get_mean_speed (Swimming (PyInt 720) (PyFloat 1) (PyFloat 80) (PyFloat 25) (PyInt 40))
     = (fun fc => PyFloat (25 * fc / 1000 / 1)%float) <$> float_of_int 40
  /\ get_spent_calories (Swimming (PyInt 720) (PyFloat 1) (PyFloat 80) (PyFloat 25) (PyInt 40))
     = (fun fc => Num (PyFloat ((25 * fc / 1000 / 1 + 1.1) * (2 * 80))%float))
       <$> float_of_int 40.
Proof.
  split; [reflexivity|].
  apply (proj1 swimming_speed_and_calories (PyInt 720) 1%float 80%float 25%float 40).
  reflexivity.
Defined.

(** C9. The distance [show_training_info] reports for a [Swimming]
    workout with a positive duration is [action * 1.38 / 1000], the
    inherited stroke-based formula (a summary is returned whenever the
    stroke and lap counts are below [2^1023]); it does not depend on
    [length_pool] and [count_pool], while the mean speed depends on
    nothing else but them and the duration.  So distance and speed times duration need not
    agree: for action=720, duration=1, length_pool=25, count_pool=40 the
    distance is 0.9936 km (the float 0.9935999999999999) and speed times
    duration is 1.0 km. *)
Theorem swimming_distance_is_stroke_based :
  (forall (a : Z) (d w lp : float) (cp : Z),
      (0 <? d)%float = true ->
      show_training_info (Swimming (PyInt a) (PyFloat d) (PyFloat w) (PyFloat lp) (PyInt cp))
      = (float_of_int a ≫= fun fa =>
         float_of_int cp ≫= fun fc =>
         Ret (InfoMessage.Build "Swimming" (PyFloat d)
                (PyFloat (fa * 1.38 / 1000)%float)
                (PyFloat (lp * fc / 1000 / d)%float)
                (Num (PyFloat ((lp * fc / 1000 / d + 1.1) * (2 * w))%float)))))
  /\ (forall (a : Z) (d w lp : float) (cp : Z),
      0 <= a < 2 ^ 1023 -> 0 <= cp < 2 ^ 1023 -> (0 <? d)%float = true ->
      exists (fa : float) (m : InfoMessage.t num),
        float_of_int a = Ret fa
        /\ show_training_info
             (Swimming (PyInt a) (PyFloat d) (PyFloat w) (PyFloat lp) (PyInt cp)) = Ret m
        /\ InfoMessage.distance m = PyFloat (fa * 1.38 / 1000)%float)
  /\ (forall N (HN : PyNumber N) (a d w lp cp lp' cp' : N),
      get_distance (Swimming a d w lp cp) = get_distance (Swimming a d w lp' cp'))
  /\ (forall a d w lp cp : Q,
      (0 < d)%Q ->
      returns (show_training_info (Swimming a d w lp cp))
        (fun m => InfoMessage.distance m == a * 1.38 / 1000
                  /\ InfoMessage.speed m == lp * cp / 1000 / d)%Q)
  /\ (let swim := Swimming (PyInt 720) (PyInt 1) (PyInt 80) (PyInt 25) (PyInt 40) in
      show_training_info swim
      = Ret (InfoMessage.Build "Swimming" (PyInt 1) (PyFloat 0.9935999999999999)
               (PyFloat 1) (Num (PyFloat 336)))
      /\ close_to 0.9935999999999999 0.9936
      /\ py_mul (PyFloat 1) (PyInt 1) = Ret (PyFloat 1)
      /\ (0.9935999999999999 =? 1)%float = false)
  /\ returns (show_training_info (Swimming 720%Q 1%Q 80%Q 25%Q 40%Q))
       (fun m => InfoMessage.distance m == 0.9936
                 /\ InfoMessage.speed m * InfoMessage.duration m == 1
                 /\ ~ InfoMessage.distance m == InfoMessage.speed m * InfoMessage.duration m)%Q.
Proof.
  assert (Heq : forall (a : Z) (d w lp : float) (cp : Z),
      (0 <? d)%float = true ->
      show_training_info (Swimming (PyInt a) (PyFloat d) (PyFloat w) (PyFloat lp) (PyInt cp))
      = (float_of_int a ≫= fun fa =>
         float_of_int cp ≫= fun fc =>
         Ret (InfoMessage.Build "Swimming" (PyFloat d)
                (PyFloat (fa * 1.38 / 1000)%float)
                (PyFloat (lp * fc / 1000 / d)%float)
                (Num (PyFloat ((lp * fc / 1000 / d + 1.1) * (2 * w))%float))))).
  { intros a d w lp cp Hd. unfold show_training_info.
    rewrite swimming_distance_binary64, swimming_mean_speed_binary64,
      swimming_calories_binary64 by exact Hd.
    cbn [duration class_name].
    destruct (float_of_int a) as [fa|e]; [|reflexivity].
    destruct (float_of_int cp) as [fc|e]; reflexivity. }
  split; [|split; [|split; [|split; [|split]]]].
  - exact Heq.
  - intros a d w lp cp Ha Hcp Hd.
    destruct (float_of_int_returns a Ha) as [fa Hfa].
    destruct (float_of_int_returns cp Hcp) as [fc Hfc].
    exists fa. eexists. split; [exact Hfa|].
    rewrite (Heq a d w lp cp Hd), Hfa, Hfc. split; reflexivity.
  - reflexivity.
  - intros a d w lp cp Hd.
    pose proof (swimming_distance_exact a d w lp cp) as Hx.
    pose proof (swimming_mean_speed_exact a d w Hd lp cp) as Hs.
    pose proof (swimming_calories_exact a d w Hd lp cp) as Hc.
    unfold show_training_info.
    destruct (get_distance (Swimming a d w lp cp)) as [x|e]; [|destruct Hx].
    destruct (get_mean_speed (Swimming a d w lp cp)) as [s|e]; [|destruct Hs].
    destruct (get_spent_calories (Swimming a d w lp cp)) as [c|e]; [|destruct Hc].
    cbn in *. split; assumption.
  - cbv zeta. repeat split; try (vm_compute; reflexivity). vm_compute; discriminate.
  - vm_compute. repeat split; discriminate.
Qed.

Lemma swimming_distance_is_stroke_based_script :
  (0 <? 1)%float = true
  /\ show_training_info
       (Swimming (PyInt 720) (PyFloat 1) (PyFloat 80) (PyFloat 25) (PyInt 40))
     = (float_of_int 720 ≫= fun fa =>
        float_of_int 40 ≫= fun fc =>
        Ret (InfoMessage.Build "Swimming" (PyFloat 1)
               (PyFloat (fa * 1.38 / 1000)%float)
               (PyFloat (25 * fc / 1000 / 1)%float)
               (Num (PyFloat ((25 * fc / 1000 / 1 + 1.1) * (2 * 80))%float)))).
Proof.
  split; [reflexivity|].
  apply (proj1 swimming_distance_is_stroke_based 720 1%float 80%float 25%float 40).
  reflexivity.
Defined.

(** ** Sports walking *)



(** ** The summary message *)

#[local] Arguments String.append !_ _ / : simpl nomatch.

Lemma parse_MESSAGE :
  parse InfoMessage.MESSAGE in_text "" ""
  = [ Text "Тип тренировки: "; Field "training_type" "";
      Text "; Длительность: "; Field "duration" ".3f";
      Text " ч.; Дистанция: "; Field "distance" ".3f";
      Text " км; Ср. скорость: "; Field "speed" ".3f";
      Text " км/ч; Потрачено ккал: "; Field "calories" ".3f";
      Text "." ].
Proof. vm_compute. reflexivity. Qed.

(** The message is the template with each field formatted in turn. *)
Lemma get_message_equation {N} `{PyNumber N} (m : InfoMessage.t N) :
  InfoMessage.get_message m
  = (format (Str (InfoMessage.training_type m)) "" ≫= fun ty =>
     format (Num (InfoMessage.duration m)) ".3f" ≫= fun d =>
     format (Num (InfoMessage.distance m)) ".3f" ≫= fun di =>
     format (Num (InfoMessage.speed m)) ".3f" ≫= fun s =>
     format (InfoMessage.calories m) ".3f" ≫= fun c =>
     Ret ("Тип тренировки: " ++ ty ++ "; Длительность: " ++ d
          ++ " ч.; Дистанция: " ++ di ++ " км; Ср. скорость: " ++ s
          ++ " км/ч; Потрачено ккал: " ++ c ++ ".")%string).
Proof.
  unfold InfoMessage.get_message, str_format. rewrite parse_MESSAGE.
  cbn [render].
  change (InfoMessage.asdict m !! "training_type"%string)
    with (Some (Str (N:=N) (InfoMessage.training_type m))).
  change (InfoMessage.asdict m !! "duration"%string)
    with (Some (Num (InfoMessage.duration m))).
  change (InfoMessage.asdict m !! "distance"%string)
    with (Some (Num (InfoMessage.distance m))).
  change (InfoMessage.asdict m !! "speed"%string)
    with (Some (Num (InfoMessage.speed m))).
  change (InfoMessage.asdict m !! "calories"%string)
    with (Some (InfoMessage.calories m)).
  cbv beta iota.
  destruct (format (Str (InfoMessage.training_type m)) "") as [ty|e]; [|reflexivity].
  destruct (format (Num (InfoMessage.duration m)) ".3f") as [d|e]; [|reflexivity].
  destruct (format (Num (InfoMessage.distance m)) ".3f") as [di|e]; [|reflexivity].
  destruct (format (Num (InfoMessage.speed m)) ".3f") as [s|e]; [|reflexivity].
  destruct (format (InfoMessage.calories m) ".3f") as [c|e]; reflexivity.
Qed.

(** Rounding to the nearest integer, ties to even, is off by at most a half. *)
Lemma round_half_even_bound (n d : Z) :
  0 <= n -> 0 < d ->
  0 <= round_half_even n d /\ Z.abs (2 * (round_half_even n d * d - n)) <= d.
Proof.
  intros Hn Hd. unfold round_half_even.
  pose proof (Z.div_mod n d ltac:(lia)) as E.
  pose proof (Z.mod_pos_bound n d Hd) as B.
  assert (Q0 : 0 <= n / d) by (apply Z.div_pos; lia).
  destruct (Z.compare_spec (2 * (n mod d)) d) as [C|C|C];
    [destruct (Z.even (n / d))| |]; split; try lia; nia.
Qed.

Lemma fixed3_rounds (n D : Z) :
  0 <= n -> 0 < D ->
  (Qabs ((n # Z.to_pos D) - (round_half_even (1000 * n) D # 1000)) <= 1 # 2000)%Q.
Proof.
  intros Hn HD.
  destruct (round_half_even_bound (1000 * n) D ltac:(lia) HD) as [Ht Hb].
  set (t := round_half_even (1000 * n) D) in *. clearbody t.
  unfold Qle, Qabs, Qminus, Qplus, Qopp. cbn [Qnum Qden].
  rewrite Pos2Z.inj_mul, Z2Pos.id by exact HD. lia.
Qed.

Lemma is_digit_digit (z : Z) : 0 <= z < 10 -> is_digit (digit z) = true.
Proof.
  intros Hz.
  assert (C : z = 0 \/ z = 1 \/ z = 2 \/ z = 3 \/ z = 4 \/ z = 5 \/ z = 6
              \/ z = 7 \/ z = 8 \/ z = 9) by lia.
  repeat (destruct C as [->|C]; [reflexivity|]). now subst.
Qed.

Lemma is_digit_not_point (c : ascii) : is_digit c = true -> Ascii.eqb c "." = false.
Proof.
  intros Hc. destruct (Ascii.eqb_spec c "."%char) as [->|]; [discriminate Hc|reflexivity].
Qed.

Lemma is_digit_not_minus (c : ascii) : is_digit c = true -> Ascii.eqb c "-" = false.
Proof.
  intros Hc. destruct (Ascii.eqb_spec c "-"%char) as [->|]; [discriminate Hc|reflexivity].
Qed.

Lemma all_digits_uint (u : Decimal.uint) : all_digits (NilEmpty.string_of_uint u) = true.
Proof. induction u; cbn; auto. Qed.

Lemma decimal_digits (k : Z) :
  exists c rest, decimal k = String c rest /\ is_digit c = true /\ all_digits rest = true.
Proof.
  unfold decimal. generalize (N.to_uint (Z.to_N k)). intros u.
  pose proof (all_digits_uint u) as A.
  destruct u; cbn in *; try (apply andb_prop in A as [A1 A2]); eauto.
Qed.

Lemma digits_point_three_app (ds : string) (x y z : ascii) :
  all_digits ds = true -> is_digit x = true -> is_digit y = true -> is_digit z = true ->
  digits_point_three (ds ++ "." ++ String x (String y (String z "")))%string = true.
Proof.
  intros Hds Hx Hy Hz.
  induction ds as [|c ds IH]; cbn [String.append digits_point_three all_digits] in *.
  - rewrite Ascii.eqb_refl. now rewrite Hx, Hy, Hz.
  - apply andb_prop in Hds as [Hc Hds].
    rewrite (is_digit_not_point c Hc), Hc. now apply IH.
Qed.

Lemma fixed3_shape (neg : bool) (n d : Z) : is_fixed3 (fixed3 neg n d) = true.
Proof.
  unfold fixed3. set (t := round_half_even (1000 * n) d).
  destruct (decimal_digits (t / 1000)) as (c & rest & E & Hc & Hr). rewrite E.
  assert (U : unsigned_fixed3
                (String c rest ++ "."
                 ++ String (digit (t / 100 mod 10))
                      (String (digit (t / 10 mod 10)) (String (digit (t mod 10)) "")))%string
              = true).
  { cbn [String.append unsigned_fixed3]. rewrite Hc. cbn [andb].
    change (String c (rest ++ ?s))%string with (String c rest ++ s)%string.
    apply digits_point_three_app;
      [ cbn [all_digits]; now rewrite Hc, Hr | | | ];
      apply is_digit_digit; apply Z.mod_pos_bound; lia. }
  destruct neg; cbn [String.append is_fixed3].
  - exact U.
  - cbn [String.append] in U. rewrite (is_digit_not_minus c Hc). exact U.
Qed.

Lemma format_float_shape (x : float) :
  finite_float x = true -> is_fixed3 (format_float_3f x) = true.
Proof.
  unfold finite_float, format_float_3f.
  destruct (Prim2SF x) as [s|s| |s m e]; try discriminate; intros _.
  - apply fixed3_shape.
  - destruct (0 <=? e); apply fixed3_shape.
Qed.

(** The number printed is the value rounded to three decimals. *)
Lemma format_float_rounds (x : float) :
  finite_float x = true ->
  exists t : Z,
    0 <= t
    /\ format_float_3f x
       = ((if sign_bit x then "-" else "") ++ decimal (t / 1000) ++ "."
          ++ String (digit (t / 100 mod 10))
               (String (digit (t / 10 mod 10)) (String (digit (t mod 10)) "")))%string
    /\ (Qabs (Qabs (exact x) - (t # 1000)) <= 1 # 2000)%Q.
Proof.
  unfold finite_float, format_float_3f, sign_bit, exact.
  destruct (Prim2SF x) as [s|s| |s m e]; try discriminate; intros _.
  - exists 0. split; [lia|]. split; [reflexivity|]. vm_compute. discriminate.
  - assert (A : forall v : Q, (0 <= v)%Q -> (Qabs (if s then - v else v) == v)%Q).
    { intros v Hv. destruct s; [rewrite Qabs_opp|]; now apply Qabs_pos. }
    destruct (Z.leb_spec 0 e) as [He|He]; cbv beta iota zeta.
    + assert (Hn : 0 <= Z.pos m * 2 ^ e)
        by (apply Z.mul_nonneg_nonneg; [lia|now apply Z.pow_nonneg]).
      exists (round_half_even (1000 * (Z.pos m * 2 ^ e)) 1).
      split; [apply round_half_even_bound; lia|]. split; [reflexivity|].
      assert (E : (0 <= inject_Z (Z.pos m * 2 ^ e))%Q)
        by (unfold Qle; cbn [Qnum Qden inject_Z]; rewrite !Z.mul_1_r; exact Hn).
      apply A in E. rewrite E.
      exact (fixed3_rounds _ 1 Hn Z.lt_0_1).
    + assert (HD : 0 < 2 ^ (- e)) by (apply Z.pow_pos_nonneg; lia).
      exists (round_half_even (1000 * Z.pos m) (2 ^ (- e))).
      split; [apply round_half_even_bound; lia|]. split; [reflexivity|].
      assert (E : (0 <= Z.pos m # Z.to_pos (2 ^ (- e)))%Q)
        by (unfold Qle; cbn [Qnum Qden]; rewrite Z.mul_0_l, Z.mul_1_r;
            apply Pos2Z.is_nonneg).
      apply A in E. rewrite E.
      exact (fixed3_rounds (Z.pos m) _ (Pos2Z.is_nonneg m) HD).
Qed.

Lemma format_float_not_finite (x : float) :
  finite_float x = false ->
  format_float_3f x = "inf"%string \/ format_float_3f x = "-inf"%string
  \/ format_float_3f x = "nan"%string.
Proof.
  unfold finite_float, format_float_3f.
  destruct (Prim2SF x) as [s|[|]| |s m e]; try discriminate; auto.
Qed.

(** C8, as the code has it.  For every type name and all float fields,
    [get_message] is the fixed template with the type name inserted
    verbatim and each numeric field rendered by the [.3f] format.  Every
    finite field is rendered with exactly three decimals, as its value
    rounded to the nearest thousandth; an infinite field is rendered as
    [inf] or [-inf] and a NaN as [nan]. *)
Theorem get_message_three_decimals :
  (forall (ty : string) (d di s c : float),
      InfoMessage.get_message
        (InfoMessage.Build ty (PyFloat d) (PyFloat di) (PyFloat s) (Num (PyFloat c)))
      = Ret ("Тип тренировки: " ++ ty
             ++ "; Длительность: " ++ format_float_3f d
             ++ " ч.; Дистанция: " ++ format_float_3f di
             ++ " км; Ср. скорость: " ++ format_float_3f s
             ++ " км/ч; Потрачено ккал: " ++ format_float_3f c ++ ".")%string)
  /\ (forall x : float,
      finite_float x = true ->
      is_fixed3 (format_float_3f x) = true
      /\ exists t : Z,
           0 <= t
           /\ format_float_3f x
              = ((if sign_bit x then "-" else "") ++ decimal (t / 1000) ++ "."
                 ++ String (digit (t / 100 mod 10))
                      (String (digit (t / 10 mod 10)) (String (digit (t mod 10)) "")))%string
           /\ (Qabs (Qabs (exact x) - (t # 1000)) <= 1 # 2000)%Q)
  /\ (forall x : float,
      finite_float x = false ->
      format_float_3f x = "inf"%string \/ format_float_3f x = "-inf"%string
      \/ format_float_3f x = "nan"%string).
Proof.
  split; [|split].
  - intros ty d di s c. rewrite get_message_equation. reflexivity.
  - intros x Hx. split; [now apply format_float_shape|now apply format_float_rounds].
  - exact format_float_not_finite.
Qed.

Lemma get_message_three_decimals_157_5 :
  finite_float 157.50000000000003 = true
  /\ is_fixed3 (format_float_3f 157.50000000000003) = true
  /\ exists t : Z,
       0 <= t
       /\ format_float_3f 157.50000000000003
          = ((if sign_bit 157.50000000000003 then "-" else "") ++ decimal (t / 1000) ++ "."
             ++ String (digit (t / 100 mod 10))
                  (String (digit (t / 10 mod 10)) (String (digit (t mod 10)) "")))%string
       /\ (Qabs (Qabs (exact 157.50000000000003) - (t # 1000)) <= 1 # 2000)%Q.
Proof.
  split; [reflexivity|].
  apply (proj1 (proj2 get_message_three_decimals) 157.50000000000003%float).
  reflexivity.
Defined.

(** C8, as stated, fails: a float field need not come out with three
    decimals.  An infinite duration is rendered as [inf] and a NaN as
    [nan]; the workout action=15000, duration=5e-324, weight=75 reaches
    such a summary through [show_training_info]. *)
Lemma get_message_infinite_field :
  InfoMessage.get_message
    (InfoMessage.Build "Running" (PyFloat infinity) (PyFloat 9.75) (PyFloat 9.75)
       (Num (PyFloat nan)))
  = Ret ("Тип тренировки: Running; Длительность: inf ч.; Дистанция: 9.750 км; "
         ++ "Ср. скорость: 9.750 км/ч; Потрачено ккал: nan.")%string
  /\ format_float_3f infinity = "inf"%string
  /\ is_fixed3 "inf" = false
  /\ format_float_3f nan = "nan"%string
  /\ is_fixed3 "nan" = false
  /\ (show_training_info (Running (PyInt 15000) (PyFloat 5e-324) (PyFloat 75))
        ≫= InfoMessage.get_message)
     = Ret ("Тип тренировки: Running; Длительность: 0.000 ч.; Дистанция: 9.750 км; "
            ++ "Ср. скорость: inf км/ч; Потрачено ккал: inf.")%string.
Proof. repeat split; vm_compute; reflexivity. Qed.

(** * Further properties *)


Lemma returns_inv {A} (m : outcome A) (P : A -> Prop) :
  returns m P -> exists a, m = Ret a /\ P a.
Proof. destruct m as [a|e]; cbn; try contradiction. eauto. Qed.

(** ** The dispatcher and the summary together *)

Lemma call_class_name {N} `{PyNumber N} (cls : training_class) (data : list N) (t : training N) :
  call cls data = Ret t ->
  match cls with
  | class_Swimming => class_name t = "Swimming"%string
  | class_Running => class_name t = "Running"%string
  | class_SportsWalking => class_name t = "SportsWalking"%string
  end
  /\ data !! 0%nat = Some (action t)
  /\ data !! 1%nat = Some (duration t)
  /\ data !! 2%nat = Some (weight t).
Proof.
  destruct cls, data as [|a [|d [|w [|x [|y [|z data]]]]]]; cbn; try discriminate;
    intros [= <-]; repeat split.
Qed.

Lemma show_training_info_fields {N} `{PyNumber N} (t : training N) (info : InfoMessage.t N) :
  show_training_info t = Ret info ->
  InfoMessage.training_type info = class_name t
  /\ InfoMessage.duration info = duration t
  /\ get_distance t = Ret (InfoMessage.distance info)
  /\ get_mean_speed t = Ret (InfoMessage.speed info)
  /\ get_spent_calories t = Ret (InfoMessage.calories info).
Proof.
  unfold show_training_info.
  destruct (get_distance t) as [x|e]; [|discriminate].
  destruct (get_mean_speed t) as [s|e]; [|discriminate].
  destruct (get_spent_calories t) as [c|e]; [|discriminate].
  cbn. intros [= <-]. repeat split.
Qed.

(** Dispatch and summary together.  When [read_package] returns a workout
    and [show_training_info] a summary of it, the summary's type name is
    the name of the class the code selects (SWM: Swimming, RUN: Running,
    WLK: SportsWalking), its duration is the second element of the data
    list, unchanged, and the three other fields are what [get_distance],
    [get_mean_speed] and [get_spent_calories] return. *)
Theorem read_package_summary_fields {N} `{PyNumber N}
    (code : string) (data : list N) (t : training N) (info : InfoMessage.t N) :
  read_package code data = Ret (Workout t) ->
  show_training_info t = Ret info ->
  ((code = "SWM"%string /\ InfoMessage.training_type info = "Swimming"%string)
   \/ (code = "RUN"%string /\ InfoMessage.training_type info = "Running"%string)
   \/ (code = "WLK"%string /\ InfoMessage.training_type info = "SportsWalking"%string))
  /\ data !! 1%nat = Some (InfoMessage.duration info)
  /\ get_distance t = Ret (InfoMessage.distance info)
  /\ get_mean_speed t = Ret (InfoMessage.speed info)
  /\ get_spent_calories t = Ret (InfoMessage.calories info).
Proof.
  unfold read_package. intros Hr Hs.
  destruct (training_dict !! code) as [cls|] eqn:Hl; [|discriminate].
  destruct (call cls data) as [t'|e] eqn:Hc; [|discriminate].
  cbn in Hr. injection Hr as ->.
  apply call_class_name in Hc as (Hn & _ & Hd & _).
  apply show_training_info_fields in Hs as (Ht & Hdu & Hx & Hsp & Hca).
  rewrite Ht, Hdu. split; [|auto].
  apply training_dict_known in Hl as [[-> ->]|[[-> ->]|[-> ->]]]; auto.
Qed.

Lemma read_package_summary_fields_running :
  let t := Running (PyInt 15000) (PyInt 1) (PyInt 75) in
  let info := InfoMessage.Build "Running" (PyInt 1) (PyFloat 9.75) (PyFloat 9.75)
                (Num (PyFloat 699.75)) in
  read_package "RUN" [PyInt 15000; PyInt 1; PyInt 75] = Ret (Workout t)
  /\ show_training_info t = Ret info
  /\ ((("RUN" = "SWM" /\ InfoMessage.training_type info = "Swimming")
       \/ ("RUN" = "RUN" /\ InfoMessage.training_type info = "Running")
       \/ ("RUN" = "WLK" /\ InfoMessage.training_type info = "SportsWalking"))%string
      /\ [PyInt 15000; PyInt 1; PyInt 75] !! 1%nat = Some (InfoMessage.duration info)
      /\ get_distance t = Ret (InfoMessage.distance info)
      /\ get_mean_speed t = Ret (InfoMessage.speed info)
      /\ get_spent_calories t = Ret (InfoMessage.calories info)).
Proof.
  cbv zeta. split; [reflexivity|]. split; [vm_compute; reflexivity|].
  apply (read_package_summary_fields (N:=num) "RUN" [PyInt 15000; PyInt 1; PyInt 75]).
  - reflexivity.
  - vm_compute. reflexivity.
Defined.

Ltac py_steps :=
  repeat first
    [ progress py_consts
    | progress cbn [mbind outcome_bind fmap outcome_fmap] ].

(** ** The base class *)

(** A base-class [Training] never yields a message: [main] raises on it in
    every number model.  With float fields the exception is
    [ZeroDivisionError] for a zero duration and otherwise the [TypeError]
    of formatting the class [NotImplementedError] with [.3f]; likewise in
    exact arithmetic. *)
Theorem base_training_never_prints :
  (forall N (HN : PyNumber N) (a d w : N), raises (main (Workout (Training a d w))))
  /\ (forall a d w : float,
        main (Workout (Training (PyFloat a) (PyFloat d) (PyFloat w)))
        = Raise (if (d =? 0)%float then ZeroDivisionError else TypeError))
  /\ (forall a d w : Q,
        main (Workout (Training a d w))
        = Raise (if Qeq_bool d 0 then ZeroDivisionError else TypeError)).
Proof.
  split; [|split].
  - intros N HN a d w. unfold main.
    destruct (show_training_info (Training a d w)) as [info|e] eqn:Hs; [|exact I].
    apply show_training_info_fields in Hs as (_ & _ & _ & _ & Hc).
    cbn [mbind outcome_bind]. rewrite get_message_equation.
    cbn [get_spent_calories] in Hc. injection Hc as Hc. rewrite <- Hc.
    destruct (format (Str _) "") as [ty|?]; [|exact I]. cbn [mbind outcome_bind].
    destruct (format (Num (InfoMessage.duration info)) ".3f") as [x1|?]; [|exact I].
    cbn [mbind outcome_bind].
    destruct (format (Num (InfoMessage.distance info)) ".3f") as [x2|?]; [|exact I].
    cbn [mbind outcome_bind].
    destruct (format (Num (InfoMessage.speed info)) ".3f") as [x3|?]; exact I.
  - intros a d w. unfold main. py_unfold. py_steps.
    change (Py.truediv (PyFloat (a * 0.65 / 1000)) (PyFloat d))
      with (PyFloat <$> float_truediv (a * 0.65 / 1000) d).
    unfold float_truediv. destruct (d =? 0)%float; [reflexivity|].
    py_steps. rewrite get_message_equation. reflexivity.
  - intros a d w. unfold main, show_training_info, get_mean_speed, get_distance.
    cbn -[InfoMessage.get_message]. change (Qeq_bool (inject_Z 1000) 0) with false.
    cbn -[InfoMessage.get_message].
    destruct (Qeq_bool d 0); [reflexivity|]. cbn -[InfoMessage.get_message].
    rewrite get_message_equation. reflexivity.
Qed.

(** ** The loop of the script *)

Lemma run_app {N} `{PyNumber N} (ps qs : list (string * list N)) :
  run (ps ++ qs) = (l1 ← run ps; l2 ← run qs; Ret (l1 ++ l2)).
Proof.
  induction ps as [|[code data] ps IH]; cbn [app run].
  - cbn. destruct (run qs); reflexivity.
  - destruct (read_package code data) as [t|e]; [|reflexivity]. cbn.
    destruct (main t) as [line|e]; [|reflexivity]. cbn.
    rewrite IH. destruct (run ps) as [l1|e]; [|reflexivity]. cbn.
    destruct (run qs) as [l2|e]; reflexivity.
Qed.

(** The loop of the script prints one line per package, in order: when it
    runs to its end, the i-th line is what [main] returns on the i-th
    package read. *)
Theorem run_one_line_per_package {N} `{PyNumber N}
    (ps : list (string * list N)) (lines : list string) :
  run ps = Ret lines ->
  length lines = length ps
  /\ forall (i : nat) (code : string) (data : list N),
       ps !! i = Some (code, data) ->
       exists (t : package N) (line : string),
         read_package code data = Ret t /\ main t = Ret line /\ lines !! i = Some line.
Proof.
  revert lines. induction ps as [|[code data] ps IH]; intros lines; cbn [run].
  - intros [= <-]. split; [reflexivity|]. intros i c dt Hi. destruct i; discriminate.
  - destruct (read_package code data) as [t|e] eqn:Hr; [|discriminate].
    cbn [mbind outcome_bind].
    destruct (main t) as [line|e] eqn:Hm; [|discriminate]. cbn [mbind outcome_bind].
    destruct (run ps) as [ls|e]; [|discriminate]. cbn [mbind outcome_bind].
    intros [= <-].
    destruct (IH ls eq_refl) as [Hl Hi]. split; [cbn [length]; now rewrite Hl|].
    intros [|i] c dt Hlook; cbn in Hlook.
    + injection Hlook as <- <-. exists t, line. repeat split; assumption.
    + now apply Hi.
Qed.

Lemma run_one_line_per_package_running :
  let ps := [("RUN"%string, [PyInt 15000; PyInt 1; PyInt 75])] in
  let lines :=
    [("Тип тренировки: Running; Длительность: 1.000 ч.; Дистанция: 9.750 км; "
      ++ "Ср. скорость: 9.750 км/ч; Потрачено ккал: 699.750.")%string] in
  run ps = Ret lines /\ length lines = length ps.
Proof.
  cbv zeta. split; [vm_compute; reflexivity|].
  apply (run_one_line_per_package (N:=num)
           [("RUN"%string, [PyInt 15000; PyInt 1; PyInt 75])]).
  vm_compute. reflexivity.
Defined.

(** The loop stops at the first unknown code: when the packages before it
    are all printed, the script ends in the [AttributeError] of calling
    [show_training_info] on the class [ValueError], whatever follows. *)
Theorem run_unknown_code_aborts {N} `{PyNumber N}
    (ps qs : list (string * list N)) (code : string) (data : list N) (lines : list string) :
  code <> "SWM"%string -> code <> "RUN"%string -> code <> "WLK"%string ->
  run ps = Ret lines ->
  run (ps ++ (code, data) :: qs) = Raise AttributeError.
Proof.
  intros H1 H2 H3 Hps. rewrite run_app, Hps. cbn.
  unfold read_package. rewrite (training_dict_unknown code H1 H2 H3). reflexivity.
Qed.

Lemma run_unknown_code_aborts_XYZ :
  let ps := [("RUN"%string, [PyInt 15000; PyInt 1; PyInt 75])] in
  let lines :=
    [("Тип тренировки: Running; Длительность: 1.000 ч.; Дистанция: 9.750 км; "
      ++ "Ср. скорость: 9.750 км/ч; Потрачено ккал: 699.750.")%string] in
  "XYZ"%string <> "SWM"%string /\ "XYZ"%string <> "RUN"%string
  /\ "XYZ"%string <> "WLK"%string
  /\ run ps = Ret lines
  /\ run (ps ++ ("XYZ"%string, []) :: [("WLK"%string, [PyInt 9000; PyInt 1; PyInt 75; PyInt 180])])
     = Raise AttributeError.
Proof.
  cbv zeta. split; [discriminate|]. split; [discriminate|]. split; [discriminate|].
  split; [vm_compute; reflexivity|].
  apply (run_unknown_code_aborts (N:=num)
           [("RUN"%string, [PyInt 15000; PyInt 1; PyInt 75])]
           [("WLK"%string, [PyInt 9000; PyInt 1; PyInt 75; PyInt 180])] "XYZ" []
           [("Тип тренировки: Running; Длительность: 1.000 ч.; Дистанция: 9.750 км; "
             ++ "Ср. скорость: 9.750 км/ч; Потрачено ккал: 699.750.")%string]);
    try discriminate.
  vm_compute. reflexivity.
Defined.

(** ** Running: the calories as a function of steps and time *)




(** ** Swimming: what the calories depend on *)



(** ** Sports walking: the speed enters in whole multiples of the height *)



(** ** When a line is printed, in exact arithmetic *)


(** ** Division by zero *)

Lemma float_of_int_error (a : Z) (e : exc_class) :
  float_of_int a = Raise e -> e = OverflowError.
Proof.
  unfold float_of_int. destruct (binary_normalize prec emax a 0 false); congruence.
Qed.

Lemma mul_outcome (a b : num) :
  (exists x, Py.mul a b = Ret x) \/ Py.mul a b = Raise OverflowError.
Proof.
  destruct a as [x|x], b as [y|y]; unfold Py.mul, arith; cbn [to_float mbind outcome_bind];
    eauto.
  - destruct (float_of_int x) as [fx|e] eqn:E; cbn [mbind outcome_bind]; eauto.
    right. now rewrite (float_of_int_error x e E).
  - destruct (float_of_int y) as [fy|e] eqn:E; cbn [mbind outcome_bind]; eauto.
    right. now rewrite (float_of_int_error y e E).
Qed.

Lemma truediv_1000_outcome (x : num) :
  (exists f, Py.truediv x (PyInt 1000) = Ret (PyFloat f))
  \/ Py.truediv x (PyInt 1000) = Raise OverflowError.
Proof.
  destruct x as [z|f].
  - unfold Py.truediv, int_truediv. destruct z as [|p|p]; [left; eexists; reflexivity| |].
    + destruct (SFdiv _ _ _ _); cbn [fmap outcome_fmap]; eauto.
    + destruct (SFdiv _ _ _ _); cbn [fmap outcome_fmap]; eauto.
  - left. exists (f / 1000)%float. reflexivity.
Qed.

Lemma truediv_zero (x d : num) :
  is_zero d = true ->
  (Py.truediv x d = Raise ZeroDivisionError \/ Py.truediv x d = Raise OverflowError)
  /\ (forall f, x = PyFloat f -> Py.truediv x d = Raise ZeroDivisionError).
Proof.
  intros Hz. destruct d as [z|g]; cbn [is_zero] in Hz.
  - apply Z.eqb_eq in Hz. subst z. destruct x as [y|f].
    + split; [left; reflexivity|discriminate].
    + split; [left; reflexivity|reflexivity].
  - destruct x as [y|f]; unfold Py.truediv; cbn [to_float mbind outcome_bind].
    + split; [|discriminate].
      destruct (float_of_int y) as [fy|e] eqn:E; cbn [mbind outcome_bind].
      * unfold float_truediv. rewrite Hz. now left.
      * right. now rewrite (float_of_int_error y e E).
    + unfold float_truediv. rewrite Hz. split; [now left|reflexivity].
Qed.

Lemma get_distance_outcome (t : training num) :
  (exists f, get_distance t = Ret (PyFloat f)) \/ get_distance t = Raise OverflowError.
Proof.
  unfold get_distance.
  destruct (mul_outcome (action t) (LEN_STEP t)) as [[x E]|E];
    change (@py_mul num num_number) with Py.mul; rewrite E; cbn [mbind outcome_bind];
    [|now right].
  exact (truediv_1000_outcome x).
Qed.

Lemma get_mean_speed_zero_duration (t : training num) :
  is_zero (duration t) = true ->
  get_mean_speed t = Raise ZeroDivisionError \/ get_mean_speed t = Raise OverflowError.
Proof.
  intros Hz.
  assert (G : forall t', duration t' = duration t ->
                (distance ← get_distance t'; py_truediv distance (duration t'))
                = Raise ZeroDivisionError
                \/ (distance ← get_distance t'; py_truediv distance (duration t'))
                   = Raise OverflowError).
  { intros t' Hd. destruct (get_distance_outcome t') as [[f E]|E]; rewrite E;
      cbn [mbind outcome_bind]; [|now right].
    left. rewrite Hd. exact (proj2 (truediv_zero (PyFloat f) _ Hz) f eq_refl). }
  destruct t as [a d w|a d w|a d w h|a d w lp cp]; try (exact (G _ eq_refl)).
  cbn [get_mean_speed duration] in *. change (@py_mul num num_number) with Py.mul.
  destruct (mul_outcome lp cp) as [[x E]|E]; rewrite E; cbn [mbind outcome_bind];
    [|now right].
  unfold M_IN_KM. change (@py_truediv num num_number) with Py.truediv.
  change (@int_lit num num_number 1000) with (PyInt 1000).
  destruct (truediv_1000_outcome x) as [[f F]|F]; rewrite F; cbn [mbind outcome_bind];
    [|now right].
  left. exact (proj2 (truediv_zero (PyFloat f) _ Hz) f eq_refl).
Qed.

(** A zero duration ([0], [0.0] or [-0.0]) never gives a mean speed: on
    CPython's numbers [get_mean_speed] raises [ZeroDivisionError], unless
    an integer operand too large for a float raises [OverflowError]
    first, and so does [main].  When [get_distance] returns (classes
    other than [Swimming]) the exception is [ZeroDivisionError].  In
    exact arithmetic it is always [ZeroDivisionError]. *)
Theorem zero_duration_raises :
  (forall t : training num,
      is_zero (duration t) = true ->
      (get_mean_speed t = Raise ZeroDivisionError \/ get_mean_speed t = Raise OverflowError)
      /\ (main (Workout t) = Raise ZeroDivisionError
          \/ main (Workout t) = Raise OverflowError))
  /\ (forall (t : training num) (x : num),
      is_zero (duration t) = true ->
      class_name t <> "Swimming"%string ->
      get_distance t = Ret x ->
      get_mean_speed t = Raise ZeroDivisionError
      /\ main (Workout t) = Raise ZeroDivisionError)
  /\ (forall t : training Q,
      (duration t == 0)%Q ->
      get_mean_speed t = Raise ZeroDivisionError
      /\ main (Workout t) = Raise ZeroDivisionError).
Proof.
  split; [|split].
  - intros t Hz. pose proof (get_mean_speed_zero_duration t Hz) as Hs.
    split; [exact Hs|]. unfold main, show_training_info.
    destruct (get_distance_outcome t) as [[f E]|E]; rewrite E; cbn [mbind outcome_bind];
      [|now right].
    destruct Hs as [-> | ->]; cbn [mbind outcome_bind]; auto.
  - intros t x Hz Hn Hx.
    assert (Hs : get_mean_speed t = Raise ZeroDivisionError).
    { destruct (get_distance_outcome t) as [[f E]|E]; [|congruence].
      destruct t as [a d w|a d w|a d w h|a d w lp cp]; [| | |now contradiction Hn];
        cbn [get_mean_speed]; rewrite E; cbn [mbind outcome_bind];
        exact (proj2 (truediv_zero (PyFloat f) _ Hz) f eq_refl). }
    split; [exact Hs|]. unfold main, show_training_info. rewrite Hx, Hs. reflexivity.
  - intros t Hz. apply Qeq_bool_iff in Hz.
    assert (K : Qeq_bool (inject_Z 1000) 0 = false) by reflexivity.
    destruct t as [a d w|a d w|a d w h|a d w lp cp]; cbn [duration] in Hz;
      unfold main, show_training_info, get_mean_speed, get_distance;
      cbn -[InfoMessage.get_message Qeq_bool get_spent_calories]; rewrite ?K, ?Hz;
      cbn -[InfoMessage.get_message Qeq_bool get_spent_calories]; rewrite ?K, ?Hz;
      split; reflexivity.
Qed.

Lemma zero_duration_raises_running :
  is_zero (duration (Running (PyInt 15000) (PyInt 0) (PyInt 75))) = true
  /\ class_name (Running (PyInt 15000) (PyInt 0) (PyInt 75)) <> "Swimming"%string
  /\ get_distance (Running (PyInt 15000) (PyInt 0) (PyInt 75)) = Ret (PyFloat 9.75)
  /\ get_mean_speed (Running (PyInt 15000) (PyInt 0) (PyInt 75)) = Raise ZeroDivisionError
  /\ main (Workout (Running (PyInt 15000) (PyInt 0) (PyInt 75))) = Raise ZeroDivisionError.
Proof.
  split; [reflexivity|]. split; [discriminate|]. split; [vm_compute; reflexivity|].
  apply (proj1 (proj2 zero_duration_raises)
           (Running (PyInt 15000) (PyInt 0) (PyInt 75)) (PyFloat 9.75)).
  - reflexivity.
  - discriminate.
  - vm_compute. reflexivity.
Defined.

Lemma floordiv_zero (x : float) (h : num) :
  is_zero h = true -> Py.floordiv (PyFloat x) h = Raise ZeroDivisionError.
Proof.
  intros Hz. destruct h as [z|g]; cbn [is_zero] in Hz.
  - apply Z.eqb_eq in Hz. subst z. reflexivity.
  - unfold Py.floordiv. cbn [to_float mbind outcome_bind]. unfold float_floordiv.
    now rewrite Hz.
Qed.

(** A [SportsWalking] workout of height zero has no calories: the floor
    division raises [ZeroDivisionError] (after the conversion of [action]
    and the square, which may raise first), so neither
    [get_spent_calories] nor [main] returns.  In exact arithmetic both
    raise [ZeroDivisionError]. *)
Theorem zero_height_raises :
  (forall (a : Z) (d w : float) (h : num),
      (0 <? d)%float = true -> is_zero h = true ->
      get_spent_calories (SportsWalking (PyInt a) (PyFloat d) (PyFloat w) h)
      = (float_of_int a ≫= fun fa =>
         float_pow2 (fa * 0.65 / 1000 / d) ≫= fun _ => Raise ZeroDivisionError)
      /\ raises (get_spent_calories (SportsWalking (PyInt a) (PyFloat d) (PyFloat w) h))
      /\ raises (main (Workout (SportsWalking (PyInt a) (PyFloat d) (PyFloat w) h))))
  /\ (forall a d w h : Q,
      (0 < d)%Q -> (h == 0)%Q ->
      get_spent_calories (SportsWalking a d w h) = Raise ZeroDivisionError
      /\ main (Workout (SportsWalking a d w h)) = Raise ZeroDivisionError).
Proof.
  split.
  - intros a d w h Hd Hz.
    assert (E : get_spent_calories (SportsWalking (PyInt a) (PyFloat d) (PyFloat w) h)
                = (float_of_int a ≫= fun fa =>
                   float_pow2 (fa * 0.65 / 1000 / d) ≫= fun _ => Raise ZeroDivisionError)).
    { py_unfold. rewrite mul_int_float.
      destruct (float_of_int a) as [fa|e]; [|reflexivity]. py_run Hd.
      unfold Py.pow2. destruct (float_pow2 _) as [sq|e]; [|reflexivity].
      py_run Hd. now rewrite (floordiv_zero sq h Hz). }
    split; [exact E|].
    assert (R : raises (get_spent_calories (SportsWalking (PyInt a) (PyFloat d) (PyFloat w) h))).
    { rewrite E. destruct (float_of_int a) as [fa|e]; [|exact I]. cbn [mbind outcome_bind].
      destruct (float_pow2 _); exact I. }
    split; [exact R|]. unfold main, show_training_info.
    destruct (get_distance _); [|exact I]. cbn [mbind outcome_bind].
    destruct (get_mean_speed _); [|exact I]. cbn [mbind outcome_bind].
    destruct (get_spent_calories _); [destruct R|exact I].
  - intros a d w h Hd Hz. apply Qeq_bool_iff in Hz.
    assert (K : Qeq_bool (inject_Z 1000) 0 = false) by reflexivity.
    pose proof (Qeq_bool_pos d Hd) as Kd.
    unfold main, show_training_info, get_spent_calories, get_mean_speed, get_distance;
      cbn -[InfoMessage.get_message Qeq_bool]; rewrite ?K, ?Kd;
      cbn -[InfoMessage.get_message Qeq_bool]; rewrite ?K, ?Kd, ?Hz;
      cbn -[InfoMessage.get_message Qeq_bool]; rewrite ?K, ?Kd, ?Hz;
      split; reflexivity.
Qed.

Lemma zero_height_raises_script :
  (0 <? 1)%float = true /\ is_zero (PyInt 0) = true
  /\ get_spent_calories (SportsWalking (PyInt 9000) (PyFloat 1) (PyFloat 75) (PyInt 0))
     = (float_of_int 9000 ≫= fun fa =>
        float_pow2 (fa * 0.65 / 1000 / 1) ≫= fun _ => Raise ZeroDivisionError)
  /\ raises (get_spent_calories (SportsWalking (PyInt 9000) (PyFloat 1) (PyFloat 75) (PyInt 0)))
  /\ raises (main (Workout (SportsWalking (PyInt 9000) (PyFloat 1) (PyFloat 75) (PyInt 0)))).
Proof.
  split; [reflexivity|]. split; [reflexivity|].
  apply (proj1 zero_height_raises 9000 1%float 75%float (PyInt 0)); reflexivity.
Defined.

(** ** Inherited distance and speed *)

(** [SportsWalking] and the base class inherit [get_distance] and
    [get_mean_speed]: in every number model they return what [Running]
    returns for the same action and duration, whatever the weight and the
    height.  So on CPython's numbers the distance of a [SportsWalking]
    workout with [0 <= action < 2^1023] is [action * 0.00065] up to a
    relative error of [2^-50], and the mean speed is that distance over
    the duration; in exact arithmetic there is no error. *)
Theorem inherited_distance_and_speed :
  (forall N (HN : PyNumber N) (a d w w' w'' h : N),
      get_distance (SportsWalking a d w h) = get_distance (Running a d w')
      /\ get_distance (Training a d w'') = get_distance (Running a d w')
      /\ get_mean_speed (SportsWalking a d w h) = get_mean_speed (Running a d w')
      /\ get_mean_speed (Training a d w'') = get_mean_speed (Running a d w'))
  /\ (forall (a : Z) (d : float) (w h : num),
      0 <= a < 2 ^ 1023 -> (0 <? d)%float = true ->
      exists x : float,
        get_distance (SportsWalking (PyInt a) (PyFloat d) w h) = Ret (PyFloat x)
        /\ finite_float x = true
        /\ (Qabs (exact x - inject_Z a * 0.00065)
            <= inject_Z a * 0.00065 * (1 # 1125899906842624))%Q
        /\ get_mean_speed (SportsWalking (PyInt a) (PyFloat d) w h)
           = Ret (PyFloat (x / d)%float))
  /\ (forall a d w h : Q,
      (0 < d)%Q ->
      exists x : Q,
        get_distance (SportsWalking a d w h) = Ret x
        /\ (x == a * 0.00065)%Q
        /\ returns (get_mean_speed (SportsWalking a d w h)) (fun s => s == x / d)%Q).
Proof.
  split; [|split].
  - intros N HN a d w w' w'' h. repeat split; reflexivity.
  - intros a d w h Ha Hd.
    destruct (float_of_int_returns a Ha) as [fa Hfa].
    destruct (distance_tolerance a fa (proj1 Ha) Hfa) as [Hfin Hclose].
    exists (fa * 0.65 / 1000)%float.
    change (get_distance (SportsWalking (PyInt a) (PyFloat d) w h))
      with (get_distance (Running (PyInt a) (PyFloat d) (PyFloat 0))).
    change (get_mean_speed (SportsWalking (PyInt a) (PyFloat d) w h))
      with (get_mean_speed (Running (PyInt a) (PyFloat d) (PyFloat 0))).
    rewrite running_distance_binary64, running_mean_speed_binary64 by exact Hd.
    rewrite Hfa. repeat split; assumption.
  - intros a d w h Hd.
    change (get_distance (SportsWalking a d w h)) with (get_distance (Running a d w)).
    change (get_mean_speed (SportsWalking a d w h)) with (get_mean_speed (Running a d w)).
    pose proof (running_distance_exact a d w) as Hx.
    pose proof (running_mean_speed_exact a d w Hd) as Hs.
    destruct (get_distance (Running a d w)) as [x|e] eqn:Ex; [|destruct Hx].
    exists x. split; [reflexivity|]. split; [exact Hx|].
    destruct (get_mean_speed (Running a d w)) as [s|e]; [|destruct Hs].
    cbn in *. rewrite Hs, Hx. reflexivity.
Qed.

Lemma inherited_distance_and_speed_9000 :
  0 <= 9000 < 2 ^ 1023 /\ (0 <? 1)%float = true
  /\ exists x : float,
       get_distance (SportsWalking (PyInt 9000) (PyFloat 1) (PyInt 75) (PyInt 180))
       = Ret (PyFloat x)
       /\ finite_float x = true
       /\ (Qabs (exact x - inject_Z 9000 * 0.00065)
           <= inject_Z 9000 * 0.00065 * (1 # 1125899906842624))%Q
       /\ get_mean_speed (SportsWalking (PyInt 9000) (PyFloat 1) (PyInt 75) (PyInt 180))
          = Ret (PyFloat (x / 1)%float).
Proof.
  split; [split; [discriminate|reflexivity]|]. split; [reflexivity|].
  apply (proj1 (proj2 inherited_distance_and_speed) 9000 1%float (PyInt 75) (PyInt 180)).
  - split; [discriminate|reflexivity].
  - reflexivity.
Defined.

(** ** When a line is printed, on CPython's numbers *)

(** On CPython's numbers [main] never raises on a [Running] workout with
    an integer step count [0 <= action < 2^1023] and a positive float
    duration, nor on such a [Swimming] workout with a float pool length
    and [0 <= count_pool < 2^1023]: the summary has four float fields and
    the line printed is the template filled with their [.3f]
    renderings. *)
Theorem main_prints_running_swimming :
  (forall (a : Z) (d w : float),
      0 <= a < 2 ^ 1023 -> (0 <? d)%float = true ->
      exists x s c : float,
        show_training_info (Running (PyInt a) (PyFloat d) (PyFloat w))
        = Ret (InfoMessage.Build "Running" (PyFloat d) (PyFloat x) (PyFloat s)
                 (Num (PyFloat c)))
        /\ main (Workout (Running (PyInt a) (PyFloat d) (PyFloat w)))
           = Ret ("Тип тренировки: Running; Длительность: " ++ format_float_3f d
                  ++ " ч.; Дистанция: " ++ format_float_3f x
                  ++ " км; Ср. скорость: " ++ format_float_3f s
                  ++ " км/ч; Потрачено ккал: " ++ format_float_3f c ++ ".")%string)
  /\ (forall (a cp : Z) (d w lp : float),
      0 <= a < 2 ^ 1023 -> 0 <= cp < 2 ^ 1023 -> (0 <? d)%float = true ->
      exists x s c : float,
        show_training_info
          (Swimming (PyInt a) (PyFloat d) (PyFloat w) (PyFloat lp) (PyInt cp))
        = Ret (InfoMessage.Build "Swimming" (PyFloat d) (PyFloat x) (PyFloat s)
                 (Num (PyFloat c)))
        /\ main (Workout (Swimming (PyInt a) (PyFloat d) (PyFloat w) (PyFloat lp) (PyInt cp)))
           = Ret ("Тип тренировки: Swimming; Длительность: " ++ format_float_3f d
                  ++ " ч.; Дистанция: " ++ format_float_3f x
                  ++ " км; Ср. скорость: " ++ format_float_3f s
                  ++ " км/ч; Потрачено ккал: " ++ format_float_3f c ++ ".")%string).
Proof.
  split.
  - intros a d w Ha Hd. destruct (float_of_int_returns a Ha) as [fa Hfa].
    eexists _, _, _.
    assert (E : show_training_info (Running (PyInt a) (PyFloat d) (PyFloat w))
                = Ret (InfoMessage.Build "Running" (PyFloat d)
                         (PyFloat (fa * 0.65 / 1000))
                         (PyFloat (fa * 0.65 / 1000 / d))
                         (Num (PyFloat ((18 * (fa * 0.65 / 1000 / d) - 20) * w / 1000
                                        * (d * 60)))))).
    { unfold show_training_info.
      rewrite running_distance_binary64, (running_mean_speed_binary64 a d w Hd),
        (running_calories_binary64 a d w Hd), Hfa. reflexivity. }
    split; [exact E|]. unfold main. rewrite E. cbn [mbind outcome_bind].
    rewrite get_message_equation. reflexivity.
  - intros a cp d w lp Ha Hcp Hd.
    destruct (float_of_int_returns a Ha) as [fa Hfa].
    destruct (float_of_int_returns cp Hcp) as [fc Hfc].
    eexists _, _, _.
    assert (E : show_training_info
                  (Swimming (PyInt a) (PyFloat d) (PyFloat w) (PyFloat lp) (PyInt cp))
                = Ret (InfoMessage.Build "Swimming" (PyFloat d)
                         (PyFloat (fa * 1.38 / 1000))
                         (PyFloat (lp * fc / 1000 / d))
                         (Num (PyFloat ((lp * fc / 1000 / d + 1.1) * (2 * w)))))).
    { unfold show_training_info.
      rewrite swimming_distance_binary64, (swimming_mean_speed_binary64 d w Hd),
        (swimming_calories_binary64 d w Hd), Hfa, Hfc. reflexivity. }
    split; [exact E|]. unfold main. rewrite E. cbn [mbind outcome_bind].
    rewrite get_message_equation. reflexivity.
Qed.

Lemma main_prints_running_swimming_15000 :
  0 <= 15000 < 2 ^ 1023 /\ (0 <? 1)%float = true
  /\ exists x s c : float,
       show_training_info (Running (PyInt 15000) (PyFloat 1) (PyFloat 75))
       = Ret (InfoMessage.Build "Running" (PyFloat 1) (PyFloat x) (PyFloat s)
                (Num (PyFloat c)))
       /\ main (Workout (Running (PyInt 15000) (PyFloat 1) (PyFloat 75)))
          = Ret ("Тип тренировки: Running; Длительность: " ++ format_float_3f 1
                 ++ " ч.; Дистанция: " ++ format_float_3f x
                 ++ " км; Ср. скорость: " ++ format_float_3f s
                 ++ " км/ч; Потрачено ккал: " ++ format_float_3f c ++ ".")%string.
Proof.
  split; [split; [discriminate|reflexivity]|]. split; [reflexivity|].
  apply (proj1 main_prints_running_swimming 15000 1%float 75%float).
  - split; [discriminate|reflexivity].
  - reflexivity.
Defined.

(** ** Overflow of the squared speed *)

(** When the mean speed of a [SportsWalking] workout is finite but its
    square is not, [**] raises [OverflowError]: [get_spent_calories] and
    [main] raise it, whatever the height (the square is taken before the
    floor division), while the [Running] workout of the same action,
    duration and weight has calories. *)
Theorem walking_square_overflow (a : Z) (d w : float) (h : num) (fa : float) :
  (0 <? d)%float = true ->
  float_of_int a = Ret fa ->
  is_infinity (fa * 0.65 / 1000 / d) = false ->
  is_infinity ((fa * 0.65 / 1000 / d) * (fa * 0.65 / 1000 / d)) = true ->
  get_mean_speed (SportsWalking (PyInt a) (PyFloat d) (PyFloat w) h)
  = Ret (PyFloat (fa * 0.65 / 1000 / d))
  /\ get_spent_calories (SportsWalking (PyInt a) (PyFloat d) (PyFloat w) h)
     = Raise OverflowError
  /\ main (Workout (SportsWalking (PyInt a) (PyFloat d) (PyFloat w) h))
     = Raise OverflowError
  /\ exists c : float,
       get_spent_calories (Running (PyInt a) (PyFloat d) (PyFloat w))
       = Ret (Num (PyFloat c)).
Proof.
  intros Hd Hfa Hs Hsq.
  assert (Es : get_mean_speed (SportsWalking (PyInt a) (PyFloat d) (PyFloat w) h)
               = Ret (PyFloat (fa * 0.65 / 1000 / d))).
  { change (get_mean_speed (SportsWalking (PyInt a) (PyFloat d) (PyFloat w) h))
      with (get_mean_speed (Running (PyInt a) (PyFloat d) (PyFloat w))).
    now rewrite (running_mean_speed_binary64 a d w Hd), Hfa. }
  assert (Ec : get_spent_calories (SportsWalking (PyInt a) (PyFloat d) (PyFloat w) h)
               = Raise OverflowError).
  { unfold get_spent_calories. rewrite Es.
    cbn [weight]. unfold COEFF_WEIGHT_WLK_2. py_ops. py_steps.
    unfold Py.pow2, float_pow2. rewrite Hsq, Hs. reflexivity. }
  split; [exact Es|]. split; [exact Ec|]. split.
  - unfold main, show_training_info. rewrite Es, Ec.
    change (get_distance (SportsWalking (PyInt a) (PyFloat d) (PyFloat w) h))
      with (get_distance (Running (PyInt a) (PyFloat d) (PyFloat w))).
    rewrite running_distance_binary64, Hfa. reflexivity.
  - rewrite (running_calories_binary64 a d w Hd), Hfa. eexists. reflexivity.
Qed.

Lemma walking_square_overflow_tiny_duration :
  (0 <? 1e-200)%float = true
  /\ float_of_int 9000 = Ret 9000%float
  /\ is_infinity (9000 * 0.65 / 1000 / 1e-200) = false
  /\ is_infinity ((9000 * 0.65 / 1000 / 1e-200) * (9000 * 0.65 / 1000 / 1e-200)) = true
  /\ get_spent_calories (SportsWalking (PyInt 9000) (PyFloat 1e-200) (PyFloat 75) (PyInt 180))
     = Raise OverflowError.
Proof.
  split; [reflexivity|]. split; [vm_compute; reflexivity|].
  split; [reflexivity|]. split; [reflexivity|].
  apply (walking_square_overflow 9000 1e-200 75 (PyInt 180) 9000); reflexivity.
Defined.

(** ** Exactly representable values *)

Lemma canonical_bounds (m : positive) (e : Z) :
  bounded prec emax m e = true ->
  fexp prec emax (Zpos (digits2_pos m) + e) = e /\ e <= 971
  /\ -1074 <= e /\ Zpos (digits2_pos m) <= 53
  /\ (-1074 < e -> Zpos (digits2_pos m) = 53).
Proof.
  unfold bounded, canonical_mantissa. intros H. apply andb_prop in H as [C B].
  apply Z.eqb_eq in C. apply Z.leb_le in B. change (emax - prec) with 971 in B.
  split; [exact C|]. split; [exact B|].
  unfold fexp, SpecFloat.emin, prec, emax in C. lia.
Qed.

(** Rounding leaves a float that is already canonical as it is. *)
Lemma binary_round_aux_canonical (sx : bool) (m : positive) (e : Z) :
  bounded prec emax m e = true ->
  binary_round_aux prec emax sx (Zpos m) e loc_Exact = S754_finite sx m e.
Proof.
  intros H. destruct (canonical_bounds m e H) as (C & B & _).
  unfold binary_round_aux, shr_fexp. cbn [Zdigits2]. rewrite C, Z.sub_diag.
  cbn [shr shr_record_of_loc shr_m loc_of_shr_record round_nearest_even Zdigits2].
  rewrite C, Z.sub_diag. cbn [shr shr_record_of_loc shr_m].
  change (emax - prec) with 971. apply Z.leb_le in B. now rewrite B.
Qed.




(** ** Floor division below the divisor *)















(** ** Integer fields of the message *)

(** An integer of at most fifty-three bits converts without rounding. *)
Lemma normalize_small (p : positive) :
  Zpos p < 2 ^ 53 ->
  exists (m : positive) (k : Z),
    0 <= k /\ Zpos m = Zpos p * 2 ^ k
    /\ bounded prec emax m (- k) = true
    /\ binary_normalize prec emax (Zpos p) 0 false = S754_finite false m (- k).
Proof.
  intros Hp. pose proof (digits2_pos_bounds p) as Hd.
  cbn [binary_normalize]. unfold binary_round.
  set (d := Zpos (digits2_pos p)) in *.
  assert (Hd1 : 1 <= d) by (unfold d; lia).
  assert (Hd53 : d <= 53).
  { destruct (Z.le_gt_cases d 53) as [L|L]; [exact L|].
    assert (2 ^ 53 <= 2 ^ (d - 1)) by (apply Z.pow_le_mono_r; lia). lia. }
  rewrite (fexp_normal (d + 0)) by lia.
  unfold shl_align.
  destruct (d + 0 - 53 - 0) as [|k|k] eqn:Ek; [| lia |].
  - assert (B : bounded prec emax p 0 = true).
    { unfold bounded, canonical_mantissa. fold d. rewrite (fexp_normal (d + 0)) by lia.
      apply andb_true_intro. split; [apply Z.eqb_eq; lia|reflexivity]. }
    exists p, 0. split; [lia|]. split; [rewrite Z.pow_0_r; lia|].
    split; [exact B|]. now apply binary_round_aux_canonical.
  - assert (Hk : Zpos k = 53 - d) by lia.
    set (mz := Pos.iter xO p k).
    assert (Hmz : Zpos mz = Zpos p * 2 ^ Zpos k) by apply pos_iter_xO.
    assert (Hn : normal_mantissa mz).
    { unfold normal_mantissa. rewrite Hmz.
      assert (E52 : 2 ^ 52 = 2 ^ (d - 1) * 2 ^ Zpos k)
        by (rewrite <- Z.pow_add_r by lia; f_equal; lia).
      assert (E53 : 2 ^ 53 = 2 ^ d * 2 ^ Zpos k)
        by (rewrite <- Z.pow_add_r by lia; f_equal; lia).
      rewrite E52, E53.
      assert (0 < 2 ^ Zpos k) by (apply Z.pow_pos_nonneg; lia). nia. }
    pose proof (normal_digits mz Hn) as Hdz.
    assert (B : bounded prec emax mz (- Zpos k) = true).
    { unfold bounded, canonical_mantissa. rewrite Hdz.
      rewrite (fexp_normal (53 + - Zpos k)) by lia.
      apply andb_true_intro. split; [apply Z.eqb_eq; lia|apply Z.leb_le].
      change (emax - prec) with 971. lia. }
    exists mz, (Zpos k). split; [lia|]. split; [exact Hmz|]. split; [exact B|].
    replace (d + 0 - 53) with (- Zpos k) by lia.
    now apply binary_round_aux_canonical.
Qed.

Lemma fixed3_integer (n D : Z) :
  0 <= n -> 0 < D -> fixed3 false (n * D) D = (decimal n ++ ".000")%string.
Proof.
  intros Hn HD. unfold fixed3, round_half_even.
  replace (1000 * (n * D)) with (1000 * n * D) by ring.
  rewrite Z.div_mul, Z.mod_mul by lia.
  destruct (Z.compare_spec (2 * 0) D) as [C|C|C]; try lia.
  replace (1000 * n / 1000) with n by (rewrite Z.mul_comm, Z.div_mul; lia).
  replace (1000 * n / 100 mod 10) with 0.
  2:{ replace (1000 * n) with (10 * n * 100) by ring.
      rewrite Z.div_mul by lia. now rewrite Z.mul_comm, Z.mod_mul by lia. }
  replace (1000 * n / 10 mod 10) with 0.
  2:{ replace (1000 * n) with (100 * n * 10) by ring.
      rewrite Z.div_mul by lia.
      replace (100 * n) with (10 * n * 10) by ring. now rewrite Z.mod_mul by lia. }
  replace (1000 * n mod 10) with 0.
  2:{ replace (1000 * n) with (100 * n * 10) by ring. now rewrite Z.mod_mul by lia. }
  reflexivity.
Qed.

Lemma format_int_small (n : Z) :
  0 <= n < 2 ^ 53 -> Py.format_3f (PyInt n) = Ret (decimal n ++ ".000")%string.
Proof.
  intros [Hn Hlt]. destruct n as [|p|p]; [reflexivity| |lia].
  destruct (normalize_small p Hlt) as (m & k & Hk & Hm & B & E).
  unfold Py.format_3f. cbn [to_float]. unfold float_of_int. rewrite E.
  cbn [fmap outcome_fmap]. f_equal. unfold format_float_3f.
  rewrite (Prim2SF_SF2Prim (S754_finite false m (- k)) B).
  destruct (Z.leb_spec 0 (- k)) as [L|L].
  - assert (k = 0) by lia. subst k. cbn [Z.opp] in *.
    rewrite Z.pow_0_r, Z.mul_1_r in *. rewrite Hm.
    rewrite <- (Z.mul_1_r (Z.pos p)) at 1. apply fixed3_integer; lia.
  - rewrite Z.opp_involutive, Hm. apply fixed3_integer; [lia|].
    apply Z.pow_pos_nonneg; lia.
Qed.

(** [show_training_info] hands the duration over as it is, so an integer
    duration reaches the [.3f] format as an [int].  For [0 <= n < 2^53]
    it is rendered as the decimal digits of [n] followed by [.000]. *)
Theorem integer_duration_three_zeros :
  (forall (N : Type) (HN : PyNumber N) (t : training N) (info : InfoMessage.t N),
      show_training_info t = Ret info -> InfoMessage.duration info = duration t)
  /\ (forall n : Z,
      0 <= n < 2 ^ 53 -> py_format_3f (PyInt n) = Ret (decimal n ++ ".000")%string)
  /\ (forall (ty : string) (n : Z) (di s c : float),
      0 <= n < 2 ^ 53 ->
      InfoMessage.get_message
        (InfoMessage.Build ty (PyInt n) (PyFloat di) (PyFloat s) (Num (PyFloat c)))
      = Ret ("Тип тренировки: " ++ ty
             ++ "; Длительность: " ++ (decimal n ++ ".000")
             ++ " ч.; Дистанция: " ++ format_float_3f di
             ++ " км; Ср. скорость: " ++ format_float_3f s
             ++ " км/ч; Потрачено ккал: " ++ format_float_3f c ++ ".")%string).
Proof.
  split; [|split].
  - intros N HN t info Hs. now apply show_training_info_fields in Hs.
  - intros n Hn. now apply format_int_small.
  - intros ty n di s c Hn. rewrite get_message_equation.
    cbn [InfoMessage.training_type InfoMessage.duration InfoMessage.distance
         InfoMessage.speed InfoMessage.calories].
    change (format (Num (PyInt n)) ".3f") with (Py.format_3f (PyInt n)).
    rewrite (format_int_small n Hn). reflexivity.
Qed.

Lemma integer_duration_three_zeros_one_hour :
  0 <= 1 < 2 ^ 53
  /\ py_format_3f (PyInt 1) = Ret (decimal 1 ++ ".000")%string.
Proof.
  split; [split; [discriminate|reflexivity]|].
  apply (proj1 (proj2 integer_duration_three_zeros) 1). split; [discriminate|reflexivity].
Defined.

(** ** The distance of a swim *)

Lemma float_of_int_pos_digits (p : positive) (fa : float) :
  float_of_int (Zpos p) = Ret fa ->
  exists m e,
    positive_normal fa m e
    /\ Zpos (digits2_pos p) - 53 <= e <= Zpos (digits2_pos p) - 52
    /\ rounding_of (scaled (Zpos m) e) (inject_Z (Zpos p)).
Proof.
  unfold float_of_int.
  destruct (normalize_pos p) as (m' & e' & E & Hm & He & Ha). rewrite E.
  assert (He' : -52 <= e') by lia.
  destruct (rounded false m' e') as [s|s| |s m e] eqn:Er; try discriminate.
  - exfalso. unfold rounded in Er.
    destruct (m' <? 2 ^ 53); [destruct (e' <=? 971)|destruct (e' + 1 <=? 971)]; discriminate.
  - exfalso. unfold rounded in Er.
    destruct (m' <? 2 ^ 53); [destruct (e' <=? 971)|destruct (e' + 1 <=? 971)]; discriminate.
  - intros [= <-].
    destruct (rounded_finite false s m' e' m e Hm ltac:(lia) Er)
      as (-> & Hn & Hee & He971 & Hv & Hval).
    exists m, e. split; [split|split].
    + exact (Prim2SF_SF2Prim (S754_finite false m e) Hv).
    + exact Hn.
    + lia.
    + apply (rounding_of_ext (scaled m' e') _ _ _ (symmetry Hval) (reflexivity _)). exact Ha.
Qed.

Lemma positive_normal_1_38 : positive_normal 1.38 6214967485771284 (-52).
Proof. split; [reflexivity|]. unfold normal_mantissa. cbn. lia. Qed.

Lemma near_1_38 : near (scaled 6214967485771284 (-52)) 1.38 unit_roundoff.
Proof. unfold near. repeat split; vm_compute; discriminate. Qed.

Lemma swimming_distance_tolerance (a : Z) (fa : float) :
  0 <= a < 2 ^ 1022 -> float_of_int a = Ret fa ->
  finite_float (fa * 1.38 / 1000) = true
  /\ (Qabs (exact (fa * 1.38 / 1000) - inject_Z a * 0.00138)
      <= inject_Z a * 0.00138 * (1 # 1125899906842624))%Q.
Proof.
  intros [Ha Hlt] Hfa. destruct a as [|p|p]; [| |lia].
  - assert (E : fa = 0%float).
    { vm_compute in Hfa. now injection Hfa as <-. }
    subst fa. split; [reflexivity|]. vm_compute. discriminate.
  - destruct (float_of_int_pos_digits p fa Hfa) as (m0 & e0 & P0 & He0 & A0).
    pose proof (digits2_pos_bounds p) as Hp.
    assert (Hd : 1 <= Zpos (digits2_pos p) <= 1022).
    { split; [lia|].
      destruct (Z.le_gt_cases (Zpos (digits2_pos p)) 1022) as [L|L]; [exact L|].
      assert (2 ^ 1022 <= 2 ^ (Zpos (digits2_pos p) - 1)) by (apply Z.pow_le_mono_r; lia).
      lia. }
    destruct (mul_prim fa 1.38 m0 _ e0 _ P0 positive_normal_1_38) as (m1 & e1 & P1 & He1 & A1);
      [lia|lia|].
    destruct (div_prim (fa * 1.38) 1000 m1 _ e1 _ P1 positive_normal_1000)
      as (m2 & e2 & P2 & He2 & A2); [lia|lia|].
    split.
    + unfold finite_float. destruct P2 as [-> _]. reflexivity.
    + rewrite exact_scaled. destruct P2 as [-> _]. cbn [value_of].
      apply near_of_rounding in A0, A1, A2.
      pose proof unit_roundoff_small as Hu.
      pose proof (near_mul _ _ _ _ _ _ Hu Hu A0 near_1_38) as B1.
      assert (Hr2 : (0 <= unit_roundoff + unit_roundoff + unit_roundoff * unit_roundoff
                     <= 1)%Q) by (split; vm_compute; discriminate).
      pose proof (near_trans _ _ _ _ _ Hu Hr2 A1 B1) as C1.
      pose proof (near_div _ _ _ 1000%Q ltac:(reflexivity) C1) as D1.
      assert (Hr3 : (0 <= unit_roundoff
                          + (unit_roundoff + unit_roundoff + unit_roundoff * unit_roundoff)
                          + unit_roundoff
                            * (unit_roundoff + unit_roundoff + unit_roundoff * unit_roundoff)
                     <= 1)%Q)
        by (split; vm_compute; discriminate).
      assert (A2' : near (scaled (Zpos m2) e2) (scaled (Zpos m1) e1 / 1000) unit_roundoff).
      { assert (E1000 : (scaled (Zpos m1) e1 / scaled 8796093022208000 (-43)
                         == scaled (Zpos m1) e1 / 1000)%Q) by (rewrite scaled_1000; reflexivity).
        exact (near_ext _ _ _ _ _ (reflexivity _) E1000 A2). }
      pose proof (near_trans _ _ _ _ _ Hu Hr3 A2' D1) as F.
      apply near_abs.
      apply (near_ext _ _ (inject_Z (Z.pos p) * 1.38 / 1000)%Q _ _ (reflexivity _));
        [field|].
      eapply near_weaken; [|exact F]. vm_compute. discriminate.
Qed.

(** [Swimming] overrides [LEN_STEP], and the inherited [get_distance]
    uses the overriding value: on CPython's numbers the distance of a swim
    with [0 <= action < 2^1022] strokes is [action * 0.00138] km up to a
    relative error of [2^-50], whatever the other fields; in exact
    arithmetic it is [action * 0.00138]. *)
Theorem swimming_distance_accuracy :
  (forall (a : Z) (d w : float) (lp cp : num),
      0 <= a < 2 ^ 1022 ->
      exists x : float,
        get_distance (Swimming (PyInt a) (PyFloat d) (PyFloat w) lp cp) = Ret (PyFloat x)
        /\ finite_float x = true
        /\ (Qabs (exact x - inject_Z a * 0.00138)
            <= inject_Z a * 0.00138 * (1 # 1125899906842624))%Q)
  /\ (forall a d w lp cp : Q,
      returns (get_distance (Swimming a d w lp cp)) (fun x => x == a * 0.00138)%Q).
Proof.
  split.
  - intros a d w lp cp Ha.
    destruct (float_of_int_returns a) as [fa Hfa].
    { split; [lia|]. assert (2 ^ 1022 < 2 ^ 1023) by (apply Z.pow_lt_mono_r; lia). lia. }
    destruct (swimming_distance_tolerance a fa Ha Hfa) as [Hfin Hclose].
    exists (fa * 1.38 / 1000)%float.
    rewrite swimming_distance_binary64, Hfa. repeat split; assumption.
  - intros a d w lp cp.
    pose proof (swimming_distance_exact a d w lp cp) as Hx.
    destruct (get_distance (Swimming a d w lp cp)) as [x|e]; [|destruct Hx].
    cbn in *. rewrite Hx. field.
Qed.

Lemma swimming_distance_accuracy_720 :
  0 <= 720 < 2 ^ 1022
  /\ exists x : float,
       get_distance (Swimming (PyInt 720) (PyFloat 1) (PyFloat 80) (PyInt 25) (PyInt 40))
       = Ret (PyFloat x)
       /\ finite_float x = true
       /\ (Qabs (exact x - inject_Z 720 * 0.00138)
           <= inject_Z 720 * 0.00138 * (1 # 1125899906842624))%Q.
Proof.
  split; [split; [discriminate|reflexivity]|].
  apply (proj1 swimming_distance_accuracy 720 1%float 80%float (PyInt 25) (PyInt 40)).
  split; [discriminate|reflexivity].
Defined.
